(** * extract_house_sales.py: a shallow embedding and its properties

    The script reads a rendered HTML page of a sales permit, collects the
    label/content pairs of the description list and the rows of the unit
    table, derives a few statistics and writes the result to a file.

    The embedding follows the script function by function.  Python values
    are modelled as follows:
    - [str] is a sequence of Unicode code points ([pystr], a list of [N]);
    - [dict] is an insertion-ordered association list with unique keys;
    - [int] is [Z];
    - the document tree built by BeautifulSoup is the inductive type [node];
    - exceptions are results in a small error monad, and what the script
      obtains from outside (file contents, the HTML parser, the clock, the
      builtin [float]) or hands to the outside (the standard output, the
      files it writes), with the ways these can fail, is read from an
      explicit environment. *)

From Stdlib Require Import Strings.String Strings.Ascii.
From Stdlib Require Import Numbers.DecimalString.
From Stdlib Require Import List NArith ZArith Bool Lia.
From Stdlib Require Floats.SpecFloat.
Import ListNotations.

Set Implicit Arguments.

(** ** Python strings *)

Module PyStr.

(** A Python [str]: a sequence of code points. *)
Definition pystr := list N.

(** Literals are written as UTF-8 text and decoded to code points. *)
Fixpoint bytes_of (s : string) : list N :=
  match s with
  | EmptyString => []
  | String a s' => N_of_ascii a :: bytes_of s'
  end.

Definition cont (b : N) : N := N.land b 63.

Fixpoint utf8_decode (bs : list N) : pystr :=
  match bs with
  | [] => []
  | b0 :: r0 =>
    if (b0 <? 128)%N then b0 :: utf8_decode r0
    else match r0 with
    | [] => []
    | b1 :: r1 =>
      if (b0 <? 224)%N
      then (N.shiftl (N.land b0 31) 6 + cont b1)%N :: utf8_decode r1
      else match r1 with
      | [] => []
      | b2 :: r2 =>
        if (b0 <? 240)%N
        then (N.shiftl (N.land b0 15) 12 + N.shiftl (cont b1) 6
              + cont b2)%N :: utf8_decode r2
        else match r2 with
        | [] => []
        | b3 :: r3 =>
          (N.shiftl (N.land b0 7) 18 + N.shiftl (cont b1) 12
           + N.shiftl (cont b2) 6 + cont b3)%N :: utf8_decode r3
        end
      end
    end
  end.

Definition lit (s : string) : pystr := utf8_decode (bytes_of s).

(** [a == b] on strings. *)
Fixpoint eqb (a b : pystr) : bool :=
  match a, b with
  | [], [] => true
  | x :: a', y :: b' => (x =? y)%N && eqb a' b'
  | _, _ => false
  end.

(** Truth value of a string: non-empty. *)
Definition truthy (s : pystr) : bool :=
  match s with [] => false | _ :: _ => true end.

(** [str.isspace] on one code point (the whitespace set of CPython). *)
Definition isspace (c : N) : bool :=
  ((9 <=? c) && (c <=? 13) || (28 <=? c) && (c <=? 32)
   || (c =? 133) || (c =? 160) || (c =? 5760)
   || (8192 <=? c) && (c <=? 8202)
   || (c =? 8232) || (c =? 8233) || (c =? 8239) || (c =? 8287)
   || (c =? 12288))%N.

Fixpoint lstrip (s : pystr) : pystr :=
  match s with
  | [] => []
  | c :: s' => if isspace c then lstrip s' else s
  end.

Definition rstrip (s : pystr) : pystr := rev (lstrip (rev s)).

(** [s.strip()] *)
Definition strip (s : pystr) : pystr := rstrip (lstrip s).

(** [s.startswith(p)] *)
Fixpoint startswith (p s : pystr) : bool :=
  match p, s with
  | [], _ => true
  | _ :: _, [] => false
  | x :: p', y :: s' => (x =? y)%N && startswith p' s'
  end.

(** [s.endswith(p)] *)
Definition endswith (p s : pystr) : bool := startswith (rev p) (rev s).

(** [needle in s] *)
Fixpoint contains (needle s : pystr) : bool :=
  startswith needle s
  || match s with
     | [] => false
     | _ :: s' => contains needle s'
     end.

(** [s.replace(old, new)]: the occurrences of [old] are found from left to
    right and do not overlap.  [skip] counts the code points of a matched
    occurrence that are still to be passed over. *)
Fixpoint replace_from (old new : pystr) (skip : nat) (s : pystr) : pystr :=
  match s with
  | [] => []
  | c :: s' =>
    match skip with
    | S k => replace_from old new k s'
    | O =>
      if startswith old s
      then new ++ replace_from old new (length old - 1) s'
      else c :: replace_from old new 0 s'
    end
  end.

Definition replace (old new s : pystr) : pystr :=
  match old with
  | [] => new ++ flat_map (fun c => c :: new) s
  | _ :: _ => replace_from old new 0 s
  end.

(** [sep.join(l)] *)
Fixpoint join (sep : pystr) (l : list pystr) : pystr :=
  match l with
  | [] => []
  | [x] => x
  | x :: l' => x ++ sep ++ join sep l'
  end.

(** [str(n)] for an [int]. *)
Definition str_of_int (z : Z) : pystr :=
  bytes_of (NilZero.string_of_int (Z.to_int z)).

End PyStr.
Import PyStr.

(** ** Python dictionaries with string keys *)

Module PyDict.

(** Items in insertion order; a key occurs at most once. *)
Definition dict (V : Type) := list (pystr * V).

Definition empty {V} : dict V := [].

(** [d.get(k)] *)
Fixpoint get {V} (d : dict V) (k : pystr) : option V :=
  match d with
  | [] => None
  | (k', v) :: d' => if PyStr.eqb k' k then Some v else get d' k
  end.

(** [d.get(k, default)] *)
Definition get_default {V} (d : dict V) (k : pystr) (default : V) : V :=
  match get d k with Some v => v | None => default end.

(** [k in d] *)
Definition mem {V} (d : dict V) (k : pystr) : bool :=
  match get d k with Some _ => true | None => false end.

(** [d[k] = v]: an existing key keeps its place and takes the new value,
    a new key goes to the end. *)
Fixpoint set {V} (d : dict V) (k : pystr) (v : V) : dict V :=
  match d with
  | [] => [(k, v)]
  | (k', v') :: d' =>
    if PyStr.eqb k' k then (k', v) :: d' else (k', v') :: set d' k v
  end.

End PyDict.

(** ** The document tree *)

Module Soup.

(** A node of the tree: a string that [get_text] reads (NavigableString,
    CData), a string that it skips (comments, declarations, script and
    style text), or a tag with its name, its [class] attribute (absent, or
    the list of its whitespace-separated values) and its contents.  The
    script looks at no other attribute. *)
#[warning="-register-all"]
Inductive node : Type :=
| NavigableString (s : pystr)
| Comment (s : pystr)
| Tag (name : pystr) (class_ : option (list pystr)) (contents : list node).

(** A node met while walking the tree, together with the siblings that
    follow it under its parent ([.next_siblings]). *)
Record located : Type := Located {
  here : node;
  next_siblings : list node
}.

(** [tag.descendants]: every node below [n], in document order. *)
Fixpoint descendants (n : node) : list located :=
  match n with
  | Tag _ _ cs =>
    (fix walk (l : list node) : list located :=
       match l with
       | [] => []
       | c :: r => Located c r :: descendants c ++ walk r
       end) cs
  | _ => []
  end.

(** The strings below [n] that [get_text] reads, in document order. *)
Fixpoint strings (n : node) : list pystr :=
  match n with
  | NavigableString s => [s]
  | Comment _ => []
  | Tag _ _ cs => flat_map strings cs
  end.

(** [tag.get_text(strip=True)]: every string is stripped, the empty ones
    are dropped, the rest is concatenated without a separator. *)
Definition get_text_strip (n : node) : pystr :=
  concat (filter truthy (map strip (strings n))).

(** How bs4 matches the [class_] argument against a tag: the filter is
    tried on each value of the attribute, then on the values joined by a
    space; a tag without the attribute is tried as [None]. *)
Definition matches_class (f : option pystr -> bool)
    (class_ : option (list pystr)) : bool :=
  match class_ with
  | None => f None
  | Some vs => existsb (fun v => f (Some v)) vs || f (Some (join [32%N] vs))
  end.

(** [class_=lambda x: x and needle in x] *)
Definition class_containing (needle : pystr) (x : option pystr) : bool :=
  match x with
  | None => false
  | Some s => truthy s && contains needle s
  end.

(** [class_='value'] *)
Definition class_equal (value : pystr) (x : option pystr) : bool :=
  match x with
  | None => false
  | Some s => PyStr.eqb s value
  end.

(** Does a node pass the filter [(name, class_=f)]? *)
Definition matches (name : pystr) (f : option (option pystr -> bool))
    (n : node) : bool :=
  match n with
  | Tag nm cls _ =>
    PyStr.eqb nm name
    && match f with None => true | Some f' => matches_class f' cls end
  | _ => false
  end.

(** [tag.find_all(name, class_=f)] *)
Definition find_all (name : pystr) (f : option (option pystr -> bool))
    (n : node) : list located :=
  filter (fun d => matches name f (here d)) (descendants n).

(** [tag.find(name, class_=f)] *)
Definition find (name : pystr) (f : option (option pystr -> bool))
    (n : node) : option located :=
  hd_error (find_all name f n).

(** [tag.find_next_sibling(name, class_=f)]: the first of the following
    siblings that passes the filter. *)
Definition find_next_sibling (name : pystr)
    (f : option (option pystr -> bool)) (d : located) : option node :=
  List.find (matches name f) (next_siblings d).

End Soup.
Import Soup.

(** ** Exceptions, output and the environment *)

(** What a [raise] carries: an instance of [Exception] with its [str(e)],
    or the [SystemExit] of [sys.exit(code)], which [except Exception] does
    not catch. *)
Inductive exn : Type :=
| Exception (str_e : pystr)
| SystemExit (code : Z).

(** The outcome of a call into the outside world: a value, or an instance
    of (a subclass of) [Exception] whose [str(e)] is [str_e]. *)
Inductive io_result (A : Type) : Type :=
| Ok (a : A)
| Raises (str_e : pystr).
Arguments Ok {A} a.
Arguments Raises {A} str_e.

(** The data handed over by the extractor. *)
Record statistics : Type := Statistics {
  total_count : Z;          (* '总房屋数' *)
  sold_count : Z;           (* '已售房屋数' *)
  unsold_count : Z;         (* '未售房屋数' *)
  mortgaged_count : Z;      (* '抵押房屋数' *)
  total_area_text : pystr;  (* '总面积' *)
  extraction_time : pystr   (* '提取时间' *)
}.

Record result : Type := Result {
  basic_info : PyDict.dict pystr;            (* '基本信息' *)
  house_details : list (PyDict.dict pystr);  (* '房屋详情' *)
  stats : statistics                         (* '统计信息' *)
}.

(** What a file holds: the output of
    [json.dump(data, f, ensure_ascii=False, indent=2)], kept symbolic, the
    text of the report, or, after a write that failed, only a beginning
    (possibly nothing) of what was being written. *)
Inductive file_content : Type :=
| JsonDump (data : result)
| TextFile (text : pystr)
| CutShort (intended : file_content).

(** How [open(path, 'w', encoding='utf-8')] and the writes under it end:
    the file is opened, written and closed; or [open] raises and the file
    system is as before; or the file is created or emptied by [open] and a
    write, or the closing of the file, raises. *)
Inductive write_outcome : Type :=
| Written
| OpenFails (str_e : pystr)
| WriteFails (str_e : pystr).

(** The script's surroundings. *)
Record env : Type := Env {
  (* open(path, 'r', encoding='utf-8') followed by f.read() *)
  open_read : pystr -> io_result pystr;
  (* BeautifulSoup(html_content, 'html.parser') *)
  BeautifulSoup : pystr -> io_result node;
  (* datetime.now().strftime('%Y-%m-%d %H:%M:%S') *)
  now_text : pystr;
  (* os.path.exists(path) *)
  path_exists : pystr -> bool;
  (* os.path.splitext(path)[0] *)
  splitext_root : pystr -> pystr;
  (* open(path, 'w', encoding='utf-8') followed by the writes *)
  open_write : pystr -> file_content -> write_outcome;
  (* what sys.stdout does with one more line after those it has taken:
     [None] when it takes it, the text of the exception when it raises
     (an encoding that lacks a character of the line, a closed pipe) *)
  stdout_write : list pystr -> pystr -> option pystr
}.

(** The state a run changes: the lines printed and the files, by path. *)
Record world : Type := World {
  stdout : list pystr;
  written : PyDict.dict file_content
}.

(** A computation that may raise and may print or write. *)
Definition M (A : Type) : Type := world -> (exn + A) * world.

Definition ret {A} (a : A) : M A := fun w => (inr a, w).

Definition bind {A B} (m : M A) (k : A -> M B) : M B :=
  fun w =>
    match m w with
    | (inr a, w') => k a w'
    | (inl e, w') => (inl e, w')
    end.

Definition raise {A} (e : exn) : M A := fun w => (inl e, w).

Notation "x <- m ;; k" := (bind m (fun x => k))
  (at level 61, m at next level, right associativity).
Notation "m ;;; k" := (bind m (fun _ => k))
  (at level 61, right associativity).

(** [print(line)]: the line is added to the output, or the standard output
    raises and the line is not printed. *)
Definition print (E : env) (line : pystr) : M unit :=
  fun w =>
    match stdout_write E (stdout w) line with
    | None => (inr tt, World (stdout w ++ [line]) (written w))
    | Some str_e => (inl (Exception str_e), w)
    end.

(** A call that may raise an [Exception]. *)
Definition call {A} (r : io_result A) : M A :=
  match r with
  | Ok a => ret a
  | Raises str_e => raise (Exception str_e)
  end.

(** [try: body except Exception as e: handler(str(e))] *)
Definition try_except {A} (body : M A) (handler : pystr -> M A) : M A :=
  fun w =>
    match body w with
    | (inl (Exception str_e), w') => handler str_e w'
    | r => r
    end.

(** [with open(path, 'w', encoding='utf-8') as f:] and the writes under
    it.  The file at [path], whatever it held, is replaced: by [content]
    when all goes well, by a beginning of it when a write fails.  When
    [open] itself fails no file changes. *)
Definition write_file (E : env) (path : pystr) (content : file_content)
    : M unit :=
  fun w =>
    match open_write E path content with
    | Written =>
      (inr tt, World (stdout w) (PyDict.set (written w) path content))
    | OpenFails str_e => (inl (Exception str_e), w)
    | WriteFails str_e =>
      (inl (Exception str_e),
       World (stdout w) (PyDict.set (written w) path (CutShort content)))
    end.

(** The builtin [float] and what the script does with its values. *)
Class PyFloat : Type := {
  float : Type;
  (* float(s) on a string; [None] when it raises ValueError *)
  float_of_str : pystr -> option float;
  (* the value of the int 0 in a float addition *)
  float_zero : float;
  (* x + y *)
  float_add : float -> float -> float;
  (* f"{x:.2f}" *)
  format_2f : float -> pystr
}.

(** ** The extractor: [extract_house_sales_info] *)

(** The string constants of the script. *)
Module K.
Definition span := lit "span".
Definition title := lit "title".
Definition tr := lit "tr".
Definition td := lit "td".
Definition div := lit "div".
Definition label_class := lit "el-descriptions-item__label".
Definition content_class := lit "el-descriptions-item__content".
Definition row_class := lit "el-table__row".
Definition cell_class := lit "el-table__cell".
Definition cell := lit "cell".
Definition project_name := lit "项目名称".
Definition location := lit "房屋坐落".
Definition sales_area := lit "销售面积".
Definition permit_use := lit "销售许可证证载用途".
Definition permit_number := lit "许可证号".
Definition title_phrase := lit "商品房销售许可证信息".
Definition room := lit "房间号".
Definition area := lit "建筑面积".
Definition price := lit "申报销售单价".
Definition sold := lit "是否出售".
Definition mortgage := lit "是否抵押".
Definition sold_yes := lit "已售".
Definition mortgage_yes := lit "是".
Definition square_metre := lit "平方米".
End K.

(** Lines 50-59: the field that a label with a content element sets. *)
Definition assign_field (basic_info : PyDict.dict pystr)
    (label_text content_text : pystr) : PyDict.dict pystr :=
  if contains K.project_name label_text
  then PyDict.set basic_info K.project_name content_text
  else if contains K.location label_text
  then PyDict.set basic_info K.location content_text
  else if contains K.sales_area label_text
  then PyDict.set basic_info K.sales_area content_text
  else if contains K.permit_use label_text
  then PyDict.set basic_info K.permit_use content_text
  else if contains K.permit_number label_text
  then PyDict.set basic_info K.permit_number content_text
  else basic_info.

(** [label.find_next_sibling('span', class_=lambda x: x and
    'el-descriptions-item__content' in x)] *)
Definition content_of (label : located) : option node :=
  find_next_sibling K.span (Some (class_containing K.content_class)) label.

(** The body of the loop over the label elements (lines 42-59). *)
Definition label_step (basic_info : PyDict.dict pystr) (label : located)
    : PyDict.dict pystr :=
  let label_text := get_text_strip (here label) in
  match content_of label with
  | Some content_element =>
    let content_text := get_text_strip content_element in
    assign_field basic_info label_text content_text
  | None => basic_info
  end.

(** Lines 40-59: the label elements, and the loop over them. *)
Definition label_elements (soup : node) : list located :=
  find_all K.span (Some (class_containing K.label_class)) soup.

Definition labelled_info (soup : node) : PyDict.dict pystr :=
  fold_left label_step (label_elements soup) PyDict.empty.

(** Lines 61-72: the project name taken from the page title. *)
Definition title_fallback (soup : node) (basic_info : PyDict.dict pystr)
    : PyDict.dict pystr :=
  if negb (PyDict.mem basic_info K.project_name) then
    match find K.title None soup with
    | Some title_element =>
      let title_text := get_text_strip (here title_element) in
      if contains K.title_phrase title_text then
        let project_name := strip (replace K.title_phrase [] title_text) in
        if truthy project_name
        then PyDict.set basic_info K.project_name project_name
        else basic_info
      else basic_info
    | None => basic_info
    end
  else basic_info.

(** Lines 86-113, once per column: the text of the cell's first
    [div class="cell"], when there is one. *)
Definition cell_field (house_info : PyDict.dict pystr) (key : pystr)
    (cell : located) : PyDict.dict pystr :=
  match find K.div (Some (class_equal K.cell)) (here cell) with
  | Some cell_div => PyDict.set house_info key (get_text_strip (here cell_div))
  | None => house_info
  end.

(** [row.find_all('td', class_='el-table__cell')] *)
Definition row_cells (row : located) : list located :=
  find_all K.td (Some (class_equal K.cell_class)) (here row).

(** Lines 83-113: the record built from the first five cells. *)
Definition build_house_info (c0 c1 c2 c3 c4 : located) : PyDict.dict pystr :=
  let house_info := PyDict.empty in
  let house_info := cell_field house_info K.room c0 in
  let house_info := cell_field house_info K.area c1 in
  let house_info := cell_field house_info K.price c2 in
  let house_info := cell_field house_info K.sold c3 in
  let house_info := cell_field house_info K.mortgage c4 in
  house_info.

(** [if house_info.get('房间号')]: the key is there and its value is not
    the empty string. *)
Definition has_room (house_info : PyDict.dict pystr) : bool :=
  match PyDict.get house_info K.room with
  | Some room => truthy room
  | None => false
  end.

(** The body of the loop over the rows (lines 80-117): what the row appends
    to [house_details], if anything.  The pattern on [cells] is
    [len(cells) >= 5]. *)
Definition row_house_info (row : located) : option (PyDict.dict pystr) :=
  match row_cells row with
  | c0 :: c1 :: c2 :: c3 :: c4 :: _ =>
    let house_info := build_house_info c0 c1 c2 c3 c4 in
    if has_room house_info then Some house_info else None
  | _ => None
  end.

(** [soup.find_all('tr', class_='el-table__row')] *)
Definition table_rows (soup : node) : list located :=
  find_all K.tr (Some (class_equal K.row_class)) soup.

Definition append_row (house_details : list (PyDict.dict pystr))
    (row : located) : list (PyDict.dict pystr) :=
  match row_house_info row with
  | Some house_info => house_details ++ [house_info]
  | None => house_details
  end.

(** Lines 75-117. *)
Definition extract_house_details (soup : node) : list (PyDict.dict pystr) :=
  fold_left append_row (table_rows soup) [].

(** [h.get(key) == value] *)
Definition field_is (key value : pystr) (h : PyDict.dict pystr) : bool :=
  match PyDict.get h key with
  | Some v => PyStr.eqb v value
  | None => false
  end.

(** [len([h for h in house_details if h.get(key) == value])] *)
Definition count_where (key value : pystr)
    (house_details : list (PyDict.dict pystr)) : Z :=
  Z.of_nat (length (filter (field_is key value) house_details)).

Section TotalArea.

Context {PF : PyFloat}.

(** Lines 131-134: the value of an area text that is not empty. *)
Definition area_value (area_text : pystr) : option float :=
  if contains K.square_metre area_text
  then float_of_str (replace K.square_metre [] area_text)
  else float_of_str area_text.

(** The body of the loop of lines 126-137. *)
Definition area_step (total_area : float) (house : PyDict.dict pystr)
    : float :=
  let area_text := PyDict.get_default house K.area [] in
  if truthy area_text then
    match area_value area_text with
    | Some v => float_add total_area v
    | None => total_area
    end
  else total_area.

(** Lines 125-137. *)
Definition compute_total_area (house_details : list (PyDict.dict pystr))
    : float :=
  fold_left area_step house_details float_zero.

(** Lines 119-151. *)
Definition build_result (now : pystr) (basic_info : PyDict.dict pystr)
    (house_details : list (PyDict.dict pystr)) : result :=
  let total_houses := Z.of_nat (length house_details) in
  let sold_houses := count_where K.sold K.sold_yes house_details in
  let mortgaged_houses :=
    count_where K.mortgage K.mortgage_yes house_details in
  let total_area := compute_total_area house_details in
  Result basic_info house_details
    (Statistics total_houses sold_houses (total_houses - sold_houses)
       mortgaged_houses (format_2f total_area ++ K.square_metre) now).

(** What the script makes of a parsed document (lines 35-151). *)
Definition extract_from_soup (now : pystr) (soup : node) : result :=
  let basic_info := title_fallback soup (labelled_info soup) in
  build_result now basic_info (extract_house_details soup).

(** [extract_house_sales_info(html_file_path)] *)
Definition extract_house_sales_info (E : env) (html_file_path : pystr)
    : M (option result) :=
  try_except
    (html_content <- call (open_read E html_file_path) ;;
     soup <- call (BeautifulSoup E html_content) ;;
     ret (Some (extract_from_soup (now_text E) soup)))
    (fun str_e =>
       print E (lit "提取过程中发生错误: " ++ str_e) ;;;
       ret None).

End TotalArea.

(** ** The reporter: [save_to_file] *)

Definition nl : pystr := [10%N].

(** [data['统计信息'].items()], each value as [str] shows it. *)
Definition statistics_items (st : statistics) : list (pystr * pystr) :=
  [ (lit "总房屋数", str_of_int (total_count st));
    (lit "已售房屋数", str_of_int (sold_count st));
    (lit "未售房屋数", str_of_int (unsold_count st));
    (lit "抵押房屋数", str_of_int (mortgaged_count st));
    (lit "总面积", total_area_text st);
    (lit "提取时间", extraction_time st) ].

(** [f"{indent}{key}: {value}\n"] for every item. *)
Definition item_lines (indent : pystr) (items : list (pystr * pystr))
    : pystr :=
  flat_map (fun kv => indent ++ fst kv ++ lit ": " ++ snd kv ++ nl) items.

(** The loop of lines 195-199; [i] is the number of the first house. *)
Fixpoint house_lines (i : Z) (houses : list (PyDict.dict pystr)) : pystr :=
  match houses with
  | [] => []
  | house :: rest =>
    lit "房屋 " ++ str_of_int i ++ lit ":" ++ nl
    ++ item_lines (lit "  ") house ++ nl
    ++ house_lines (i + 1) rest
  end.

(** Lines 175-199: everything written to a [.txt] file. *)
Definition text_report (data : result) : pystr :=
  lit "房屋销售信息提取报告" ++ nl
  ++ repeat 61%N 50 ++ nl ++ nl
  ++ lit "基本信息:" ++ nl
  ++ repeat 45%N 20 ++ nl
  ++ item_lines [] (basic_info data) ++ nl
  ++ lit "统计信息:" ++ nl
  ++ repeat 45%N 20 ++ nl
  ++ item_lines [] (statistics_items (stats data)) ++ nl
  ++ lit "房屋详情:" ++ nl
  ++ repeat 45%N 20 ++ nl
  ++ house_lines 1 (house_details data).

(** Lines 170-204: the file that is written; the value is the path that
    the message of line 206 shows. *)
Definition write_output (E : env) (data : result) (output_file : pystr)
    : M pystr :=
  if endswith (lit ".json") output_file then
    write_file E output_file (JsonDump data) ;;; ret output_file
  else if endswith (lit ".txt") output_file then
    write_file E output_file (TextFile (text_report data)) ;;;
    ret output_file
  else
    let output_file := output_file ++ lit ".json" in
    write_file E output_file (JsonDump data) ;;; ret output_file.

(** [save_to_file(data, output_file)] *)
Definition save_to_file (E : env) (data : result) (output_file : pystr)
    : M unit :=
  try_except
    (output_file <- write_output E data output_file ;;
     print E (lit "数据已成功保存到: " ++ output_file))
    (fun str_e => print E (lit "保存文件时发生错误: " ++ str_e)).

(** ** The command line: [main] *)

(** What argparse returns. *)
Record args : Type := Args {
  html_file : pystr;
  output : option pystr
}.

Section Main.

Context {PF : PyFloat}.

(** Lines 226-230.  [if args.output] is false for an absent and for an empty
    option value. *)
Definition output_path (E : env) (a : args) : pystr :=
  match output a with
  | Some o =>
    if truthy o then o
    else splitext_root E (html_file a) ++ lit "_销售信息.json"
  | None => splitext_root E (html_file a) ++ lit "_销售信息.json"
  end.

(** [main()].  A result of the extractor is a dictionary of three keys, so
    [if data] asks whether it is not [None]. *)
Definition main (E : env) (a : args) : M unit :=
  (if negb (path_exists E (html_file a)) then
     print E (lit "错误: 文件 '" ++ html_file a ++ lit "' 不存在") ;;;
     raise (SystemExit 1)
   else ret tt) ;;;
  let output_file := output_path E a in
  print E (lit "正在处理文件: " ++ html_file a) ;;;
  data <- extract_house_sales_info E (html_file a) ;;
  match data with
  | Some data =>
    print E (lit "成功提取到 " ++ str_of_int (total_count (stats data))
           ++ lit " 套房屋信息") ;;;
    print E (lit "已售房屋: " ++ str_of_int (sold_count (stats data))
           ++ lit " 套") ;;;
    print E (lit "未售房屋: " ++ str_of_int (unsold_count (stats data))
           ++ lit " 套") ;;;
    print E (lit "抵押房屋: " ++ str_of_int (mortgaged_count (stats data))
           ++ lit " 套") ;;;
    save_to_file E data output_file
  | None =>
    print E (lit "提取失败，请检查HTML文件格式") ;;;
    raise (SystemExit 1)
  end.

End Main.

(** The exit status of the process after [main]: 0 when it returns, the
    code of [sys.exit], 1 when an exception is not caught. *)
Definition exit_status (r : exn + unit) : Z :=
  match r with
  | inr _ => 0
  | inl (SystemExit code) => code
  | inl (Exception _) => 1
  end.

(** ** The builtin [float] of CPython on IEEE 754 binary64 *)

Module Binary64.

Import SpecFloat.

Definition prec : Z := 53.
Definition emax : Z := 1024.

Definition is_digit (c : N) : bool := ((48 <=? c) && (c <=? 57))%N.

(** [Py_ISSPACE] *)
Definition is_ascii_space (c : N) : bool :=
  ((9 <=? c) && (c <=? 13) || (c =? 32))%N.

(** The code points of the digit zero of every decimal script (Unicode
    14.0); the nine code points that follow each are its digits 1 to 9. *)
Definition zero_digits : list N :=
  [48; 1632; 1776; 1984; 2406; 2534; 2662; 2790; 2918; 3046; 3174; 3302;
   3430; 3558; 3664; 3792; 3872; 4160; 4240; 6112; 6160; 6470; 6608; 6784;
   6800; 6992; 7088; 7232; 7248; 42528; 43216; 43264; 43472; 43504; 43600;
   44016; 65296; 66720; 68912; 69734; 69872; 69942; 70096; 70384; 70736;
   70864; 71248; 71360; 71472; 71904; 72016; 72784; 73040; 73120; 92768;
   92864; 93008; 120782; 120792; 120802; 120812; 120822; 123200; 123632;
   125264; 130032]%N.

(** [Py_UNICODE_TODECIMAL] *)
Definition todecimal (c : N) : option N :=
  match List.find (fun z => (z <=? c) && (c <? z + 10))%N zero_digits with
  | Some z => Some (c - z)%N
  | None => None
  end.

(** A string with a code point above 126 has its whitespace turned into
    spaces and its decimal digits into ASCII digits; it is cut after the
    first code point that is neither, which becomes a question mark. *)
Fixpoint to_ascii (s : pystr) : pystr :=
  match s with
  | [] => []
  | c :: r =>
    if (c <? 127)%N then c :: to_ascii r
    else if isspace c then 32%N :: to_ascii r
    else match todecimal c with
         | Some d => (48 + d)%N :: to_ascii r
         | None => [63%N]
         end
  end.

Definition transform (s : pystr) : pystr :=
  if forallb (fun c => c <? 128)%N s then s else to_ascii s.

(** Underscores are dropped; each must stand between two digits. *)
Fixpoint drop_underscores (prev : N) (s : pystr) : option pystr :=
  match s with
  | [] => if (prev =? 95)%N then None else Some []
  | c :: r =>
    if (c =? 95)%N then
      if is_digit prev then drop_underscores c r else None
    else if (prev =? 95)%N && negb (is_digit c) then None
    else option_map (cons c) (drop_underscores c r)
  end.

Fixpoint lstrip_ascii (s : pystr) : pystr :=
  match s with
  | [] => []
  | c :: r => if is_ascii_space c then lstrip_ascii r else s
  end.

Definition strip_ascii (s : pystr) : pystr :=
  rev (lstrip_ascii (rev (lstrip_ascii s))).

(** The leading digits of [s], as their values, and what follows them. *)
Fixpoint take_digits (s : pystr) : list N * pystr :=
  match s with
  | [] => ([], [])
  | c :: r =>
    if is_digit c
    then let '(ds, rest) := take_digits r in ((c - 48)%N :: ds, rest)
    else ([], s)
  end.

Definition digits_value (ds : list N) : N :=
  fold_left (fun acc d => 10 * acc + d)%N ds 0%N.

(** An optional sign: is it a minus, and what follows. *)
Definition take_sign (s : pystr) : bool * pystr :=
  match s with
  | 45%N :: r => (true, r)
  | 43%N :: r => (false, r)
  | _ => (false, s)
  end.

Definition lower (c : N) : N :=
  if ((65 <=? c) && (c <=? 90))%N then (c + 32)%N else c.

(** The binary64 nearest to [m * 10^e], ties to even. *)
Definition of_decimal (neg : bool) (m : N) (e : Z) : spec_float :=
  match m with
  | N0 => S754_zero neg
  | Npos p =>
    match e with
    | Z0 => binary_round prec emax neg p 0
    | Zpos k => binary_round prec emax neg (p * Pos.pow 10 k) 0
    | Zneg k =>
      SFdiv prec emax (S754_finite neg p 0)
        (S754_finite false (Pos.pow 10 k) 0)
    end
  end.

(** The exponent part: absent, or [e], an optional sign and digits. *)
Definition parse_exponent (s : pystr) : option Z :=
  match s with
  | [] => Some 0%Z
  | c :: r =>
    if ((c =? 101) || (c =? 69))%N then
      let '(eneg, r1) := take_sign r in
      match take_digits r1 with
      | ((_ :: _) as ds, []) =>
        let e := Z.of_N (digits_value ds) in
        Some (if eneg then (- e)%Z else e)
      | _ => None
      end
    else None
  end.

(** A number without its sign: [inf], [infinity], [nan] in any case, or
    digits with an optional point and an optional exponent. *)
Definition parse_unsigned (neg : bool) (s : pystr) : option spec_float :=
  let l := map lower s in
  if PyStr.eqb l (lit "inf") || PyStr.eqb l (lit "infinity")
  then Some (S754_infinity neg)
  else if PyStr.eqb l (lit "nan") then Some S754_nan
  else
    let '(ip, r1) := take_digits s in
    let '(fp, r2) :=
      match r1 with
      | 46%N :: r => take_digits r
      | _ => ([], r1)
      end in
    match ip ++ fp with
    | [] => None
    | _ :: _ =>
      match parse_exponent r2 with
      | Some e =>
        Some (of_decimal neg (digits_value (ip ++ fp))
                (e - Z.of_nat (length fp)))
      | None => None
      end
    end.

(** [float(s)] for a string [s]. *)
Definition float_of_str (s : pystr) : option spec_float :=
  match drop_underscores 0%N (transform s) with
  | Some s1 =>
    match strip_ascii s1 with
    | [] => None
    | (_ :: _) as s2 => let '(neg, r) := take_sign s2 in parse_unsigned neg r
    end
  | None => None
  end.

(** [n] scaled by [2^e] and rounded to an integer, ties to even. *)
Definition round_scaled (n : N) (e : Z) : N :=
  match e with
  | Z0 => n
  | Zpos k => (n * N.pos (Pos.pow 2 k))%N
  | Zneg k =>
    let d := N.pos (Pos.pow 2 k) in
    let q := (n / d)%N in
    let r := (n mod d)%N in
    match (2 * r ?= d)%N with
    | Lt => q
    | Gt => (q + 1)%N
    | Eq => if N.even q then q else (q + 1)%N
    end
  end.

Definition two_digits (n : N) : pystr :=
  [(48 + n / 10)%N; (48 + n mod 10)%N].

(** [f"{x:.2f}"] *)
Definition format_2f (x : spec_float) : pystr :=
  let sign (neg : bool) : pystr := if neg then lit "-" else [] in
  match x with
  | S754_nan => lit "nan"
  | S754_infinity neg => sign neg ++ lit "inf"
  | S754_zero neg => sign neg ++ lit "0.00"
  | S754_finite neg m e =>
    let h := round_scaled (100 * N.pos m) e in
    sign neg ++ str_of_int (Z.of_N (h / 100)) ++ lit "."
    ++ two_digits (h mod 100)
  end.

#[global] Instance binary64 : PyFloat := {
  float := spec_float;
  float_of_str := float_of_str;
  float_zero := S754_zero false;
  float_add := SFadd prec emax;
  format_2f := format_2f
}.

End Binary64.


(** ** The notions the properties are stated with *)

(** The next sibling of a node that is an element, strings passed over. *)
Definition next_element (siblings : list node) : option node :=
  List.find (fun n => match n with Tag _ _ _ => true | _ => false end)
    siblings.

(** Pairing by adjacency only: the element right after the label, when it
    is a content element. *)
Definition immediate_content_sibling (label : located) : option node :=
  match next_element (next_siblings label) with
  | Some n =>
    if matches K.span (Some (class_containing K.content_class)) n
    then Some n else None
  | None => None
  end.

(** The filter of line 45 on one node. *)
Definition is_content (n : node) : bool :=
  matches K.span (Some (class_containing K.content_class)) n.

(** What is left of a title once the fixed phrase is taken out. *)
Definition title_remainder (title_text : pystr) : pystr :=
  strip (replace K.title_phrase [] title_text).

(** The five field names, in the order the script tries them. *)
Definition known_fields : list pystr :=
  [K.project_name; K.location; K.sales_area; K.permit_use; K.permit_number].

(** The first field name that occurs in a label text. *)
Definition first_match (label_text : pystr) : option pystr :=
  List.find (fun k => contains k label_text) known_fields.

(** The field a label element assigns and the value it gives it. *)
Definition assignment (label : located) : option (pystr * pystr) :=
  match content_of label, first_match (get_text_strip (here label)) with
  | Some content_element, Some k => Some (k, get_text_strip content_element)
  | _, _ => None
  end.

(** The unit identifier of a row: the stripped text of the wrapper in its
    first cell. *)
Definition unit_identifier (row : located) : option pystr :=
  match row_cells row with
  | c0 :: _ =>
    match find K.div (Some (class_equal K.cell)) (here c0) with
    | Some cell_div => Some (get_text_strip (here cell_div))
    | None => None
    end
  | [] => None
  end.

(** What each row contributes to the unit sequence. *)
Definition retained (rows : list located) : list (PyDict.dict pystr) :=
  flat_map
    (fun row =>
       match row_house_info row with Some h => [h] | None => [] end)
    rows.

(** Removing a suffix only: [s] without a trailing [suffix]. *)
Definition strip_suffix (suffix s : pystr) : pystr :=
  if endswith suffix s then firstn (length s - length suffix) s else s.

(** The area value read by removing a trailing unit of measure only. *)
Definition suffix_area_value {PF : PyFloat} (area_text : pystr)
    : option float :=
  float_of_str (strip_suffix K.square_metre area_text).

(** The path [save_to_file] writes to, and what it writes there. *)
Definition destination (output_file : pystr) : pystr :=
  if endswith (lit ".json") output_file then output_file
  else if endswith (lit ".txt") output_file then output_file
  else output_file ++ lit ".json".

Definition payload (data : result) (output_file : pystr) : file_content :=
  if endswith (lit ".json") output_file then JsonDump data
  else if endswith (lit ".txt") output_file
  then TextFile (text_report data)
  else JsonDump data.

(** Was the file read and parsed? *)
Definition extraction_succeeds (E : env) (path : pystr) : bool :=
  match open_read E path with
  | Ok html_content =>
    match BeautifulSoup E html_content with
    | Ok _ => true
    | Raises _ => false
    end
  | Raises _ => false
  end.

(** An environment that differs from [E] in what writing does. *)
Definition with_open_write (E : env)
    (f : pystr -> file_content -> write_outcome) : env :=
  Env (open_read E) (BeautifulSoup E) (now_text E) (path_exists E)
    (splitext_root E) f (stdout_write E).

(** The lines of lines 156, 206 and 209, written out once more. *)
Definition extraction_diagnostic (str_e : pystr) : pystr :=
  lit "提取过程中发生错误: " ++ str_e.

Definition saved_message (output_file : pystr) : pystr :=
  lit "数据已成功保存到: " ++ output_file.

Definition save_diagnostic (str_e : pystr) : pystr :=
  lit "保存文件时发生错误: " ++ str_e.

(** A standard output that takes every line. *)
Definition stdout_works (E : env) : Prop :=
  forall printed line, stdout_write E printed line = None.

(** Lines offered to the standard output one after the other, up to the
    first it refuses: the error of that one, if any, and the state
    reached. *)
Fixpoint say (E : env) (lines : list pystr) (w : world)
    : option pystr * world :=
  match lines with
  | [] => (None, w)
  | line :: rest =>
    match stdout_write E (stdout w) line with
    | None => say E rest (World (stdout w ++ [line]) (written w))
    | Some str_e => (Some str_e, w)
    end
  end.

(** A run that is to print [lines] and then end as [r]: it ends as [r]
    when all of them are taken, and with the exception of the standard
    output otherwise. *)
Definition after_saying {A : Type} (E : env) (lines : list pystr)
    (r : exn + A) (w : world) : (exn + A) * world :=
  match say E lines w with
  | (None, w') => (r, w')
  | (Some str_e, w') => (inl (Exception str_e), w')
  end.

(** The state in which the file at [path] holds [content]. *)
Definition with_file (w : world) (path : pystr) (content : file_content)
    : world :=
  World (stdout w) (PyDict.set (written w) path content).

(** What a call of [save_to_file] that is to write [content] at [path]
    comes to: the write, then the line that names the path; any error on
    the way, be it of the write or of that line, is answered by the
    diagnostic line, and only the refusal of the diagnostic line itself
    ends the call with an exception. *)
Definition save_outcome (E : env) (path : pystr) (content : file_content)
    (w : world) : (exn + unit) * world :=
  match open_write E path content with
  | Written =>
    match say E [saved_message path] (with_file w path content) with
    | (None, w') => (inr tt, w')
    | (Some str_e, w') => after_saying E [save_diagnostic str_e] (inr tt) w'
    end
  | OpenFails str_e => after_saying E [save_diagnostic str_e] (inr tt) w
  | WriteFails str_e =>
    after_saying E [save_diagnostic str_e] (inr tt)
      (with_file w path (CutShort content))
  end.

(** The lines [main] prints (lines 222, 232, 238-241 and 246). *)
Definition missing_message (html_file : pystr) : pystr :=
  lit "错误: 文件 '" ++ html_file ++ lit "' 不存在".

Definition processing_message (html_file : pystr) : pystr :=
  lit "正在处理文件: " ++ html_file.

Definition summary_lines (st : statistics) : list pystr :=
  [lit "成功提取到 " ++ str_of_int (total_count st) ++ lit " 套房屋信息";
   lit "已售房屋: " ++ str_of_int (sold_count st) ++ lit " 套";
   lit "未售房屋: " ++ str_of_int (unsold_count st) ++ lit " 套";
   lit "抵押房屋: " ++ str_of_int (mortgaged_count st) ++ lit " 套"].

Definition failure_message : pystr := lit "提取失败，请检查HTML文件格式".

(** The default output path of line 230. *)
Definition default_output (E : env) (html_file : pystr) : pystr :=
  splitext_root E html_file ++ lit "_销售信息.json".

(** The stripped text of the wrapper of a cell, when it has one. *)
Definition wrapper_text (cell : located) : option pystr :=
  match find K.div (Some (class_equal K.cell)) (here cell) with
  | Some cell_div => Some (get_text_strip (here cell_div))
  | None => None
  end.

(** The five keys of a unit record, in the order the script sets them. *)
Definition unit_fields : list pystr :=
  [K.room; K.area; K.price; K.sold; K.mortgage].

(** [list(d.keys())] *)
Definition keys {V : Type} (d : PyDict.dict V) : list pystr := map fst d.

(** A string with no whitespace at either end. *)
Definition trimmed (s : pystr) : Prop :=
  match s with
  | [] => True
  | c :: _ => isspace c = false /\ isspace (last s c) = false
  end.

(** A dictionary whose keys are among [allowed], occur once each, and
    whose values have no whitespace at either end. *)
Definition tidy (allowed : list pystr) (d : PyDict.dict pystr) : Prop :=
  incl (keys d) allowed
  /\ NoDup (keys d)
  /\ forall k v, PyDict.get d k = Some v -> trimmed v.

(** A unit whose area the loop of lines 126-137 passes over: the text is
    missing or empty, or [float] refuses what is left of it. *)
Definition area_skipped {PF : PyFloat} (house : PyDict.dict pystr) : Prop :=
  match PyDict.get_default house K.area [] with
  | [] => True
  | (_ :: _) as area_text =>
    float_of_str (replace K.square_metre [] area_text) = None
  end.

(** The header line of a unit in the text report (line 196). *)
Definition house_header (i : Z) : pystr :=
  lit "房屋 " ++ str_of_int i ++ lit ":" ++ nl.

(** ** Sample documents *)

Module Sample.

Local Open Scope string_scope.

Definition text (s : string) : node := NavigableString (lit s).

Definition elem (name : string) (classes : list string)
    (contents : list node) : node :=
  Tag (lit name) (Some (map lit classes)) contents.

Definition plain (name : string) (contents : list node) : node :=
  Tag (lit name) None contents.

Definition label (s : string) : node :=
  elem "span" ["el-descriptions-item__label"] [text s].

Definition content (s : string) : node :=
  elem "span" ["el-descriptions-item__content"] [text s].

Definition td (s : string) : node :=
  elem "td" ["el-table_1_column_1"; "el-table__cell"]
    [elem "div" ["cell"] [text s]].

Definition row (cells : list node) : node :=
  elem "tr" ["el-table__row"] cells.

Definition document (contents : list node) : node :=
  Tag (lit "[document]") None contents.

(** A page with one basic-info pair, a title, two units, a row of four
    cells and a row whose identifier is blank. *)
Definition page : node :=
  document
    [plain "html"
       [plain "head" [plain "title" [text " 阳光花园商品房销售许可证信息 "]];
        plain "body"
          [elem "div" ["el-descriptions"]
             [label "房屋坐落:"; text " "; content " 天津市河西区 "];
           plain "table"
             [row [td "1-101"; td "89.5平方米"; td "12000"; td "已售";
                   td "否"];
              row [td "1-102"; td "abc"; td "12500"; td "未售"; td "是"];
              row [td "1-103"; td "90"; td "12500"; td "未售"];
              row [td "  "; td "90"; td "12500"; td "已售"; td "是"]]]]].

(** A label, another element, then the content element. *)
Definition apart : node :=
  document
    [elem "div" ["el-descriptions"]
       [label "项目名称"; plain "b" [text "*"]; content "阳光花园"]].

(** One label that names two fields. *)
Definition two_names : node :=
  document
    [elem "div" ["el-descriptions"]
       [label "项目名称及房屋坐落"; content "阳光花园"]].

(** A page without labels whose title lacks the fixed phrase. *)
Definition other_title : node :=
  document
    [plain "html"
       [plain "head" [plain "title" [text "阳光花园公示"]];
        plain "body" []]].

(** The same field named by two labels. *)
Definition twice : node :=
  document
    [elem "div" ["el-descriptions"]
       [label "项目名称:"; content "阳光花园";
        label "项目名称"; content "海河新城"]].

(** An environment in which [page.html] exists and parses to [soup]. *)
Definition env_on (soup : io_result node)
    (writes : pystr -> file_content -> write_outcome)
    (out : list pystr -> pystr -> option pystr) : env :=
  Env (fun path => if PyStr.eqb path (lit "page.html")
                   then Ok (lit "<html>") else Raises (lit "No such file"))
      (fun _ => soup)
      (lit "2024-01-01 00:00:00")
      (fun path => PyStr.eqb path (lit "page.html"))
      (fun _ => lit "page")
      writes
      out.

(** The same with a standard output that takes every line and writes that
    fail, if they do, when the file is opened. *)
Definition env_of (soup : io_result node)
    (writes : pystr -> file_content -> option pystr) : env :=
  env_on soup
    (fun path content =>
       match writes path content with
       | None => Written
       | Some str_e => OpenFails str_e
       end)
    (fun _ _ => None).

(** A standard output whose encoding is ASCII. *)
Definition ascii_only (printed : list pystr) (line : pystr)
    : option pystr :=
  if forallb (fun c => c <? 128)%N line then None
  else Some (lit "'ascii' codec can't encode characters").

(** A standard output whose encoding has every character the script
    prints of its own, but not the house U+1F3E0. *)
Definition no_house (printed : list pystr) (line : pystr) : option pystr :=
  if existsb (fun c => c =? 127968)%N line
  then Some (lit "'gbk' codec can't encode character")
  else None.

Definition world0 : world := World [] [].

(** A page that cannot be parsed, on an ASCII standard output. *)
Definition unparsable_on_ascii : env :=
  env_on (Raises (lit "bad markup")) (fun _ _ => Written) ascii_only.

(** The sample page, an output file that cannot be opened and whose name
    the standard output cannot show. *)
Definition locked_house : env :=
  env_on (Ok page)
    (fun _ _ => OpenFails (lit "Permission denied: '🏠.json'"))
    no_house.

Definition house (area_text : string) : PyDict.dict pystr :=
  [(K.room, lit "1-101"); (K.area, lit area_text)].

End Sample.

(** * Properties *)

(** ** Strings and dictionaries *)

Example lit_cjk : lit "项目" = [39033%N; 30446%N].
Proof. reflexivity. Qed.

Lemma eqb_eq (a b : pystr) : PyStr.eqb a b = true <-> a = b.
Proof.
  revert b; induction a as [|x a IH]; intros [|y b]; simpl;
    try (split; [discriminate | discriminate]); [tauto|].
  rewrite andb_true_iff, N.eqb_eq, IH.
  split; [intros [-> ->]; reflexivity | intros H; inversion H; auto].
Qed.

Lemma eqb_refl (a : pystr) : PyStr.eqb a a = true.
Proof. apply eqb_eq; reflexivity. Qed.

Lemma eqb_neq (a b : pystr) : PyStr.eqb a b = false <-> a <> b.
Proof.
  rewrite <- eqb_eq. destruct (PyStr.eqb a b); split; congruence.
Qed.

Lemma startswith_spec (p s : pystr) :
  startswith p s = true <-> exists r, s = p ++ r.
Proof.
  revert s; induction p as [|x p IH]; intros s; simpl.
  - split; [intros _; exists s; reflexivity | reflexivity].
  - destruct s as [|y s].
    + split; [discriminate | intros [r H]; discriminate].
    + rewrite andb_true_iff, N.eqb_eq, IH. split.
      * intros [-> [r ->]]. exists r; reflexivity.
      * intros [r H]. inversion H. split; [reflexivity | exists r; reflexivity].
Qed.

Lemma contains_spec (needle s : pystr) :
  contains needle s = true <-> exists l r, s = l ++ needle ++ r.
Proof.
  induction s as [|c s IH]; simpl.
  - rewrite orb_false_r, startswith_spec. split.
    + intros [r H]. exists [], r. exact H.
    + intros [l [r H]]. destruct l; [exists r; exact H | discriminate].
  - rewrite orb_true_iff, startswith_spec, IH. split.
    + intros [[r H] | [l [r H]]].
      * exists [], r. exact H.
      * exists (c :: l), r. rewrite H. reflexivity.
    + intros [[|c' l] [r H]].
      * left. exists r. exact H.
      * right. inversion H. exists l, r. reflexivity.
Qed.

Lemma endswith_spec (p s : pystr) :
  endswith p s = true <-> exists l, s = l ++ p.
Proof.
  unfold endswith. rewrite startswith_spec. split.
  - intros [r H]. exists (rev r).
    rewrite <- (rev_involutive s), H, rev_app_distr, rev_involutive.
    reflexivity.
  - intros [l ->]. exists (rev l). apply rev_app_distr.
Qed.

(** A string in which [old] does not occur is left as it is. *)
Lemma replace_absent (old new s : pystr) :
  contains old s = false -> replace old new s = s.
Proof.
  destruct old as [|o old].
  - destruct s; discriminate.
  - unfold replace. induction s as [|c s IH]; [reflexivity|].
    intros H. cbn [contains] in H. apply orb_false_iff in H as [H1 H2].
    cbn [replace_from]. rewrite H1, (IH H2). reflexivity.
Qed.

(** The equations of [str.replace] for a non-empty [old]. *)
Lemma replace_match (o : N) (old new s : pystr) :
  startswith (o :: old) s = true ->
  replace (o :: old) new s
  = new ++ replace (o :: old) new (skipn (length (o :: old)) s).
Proof.
  intros H. destruct s as [|c s]; [discriminate|].
  unfold replace. cbn [replace_from]. rewrite H. f_equal.
  cbn [length skipn]. replace (S (length old) - 1) with (length old) by lia.
  clear H. generalize (length old) as k.
  induction s as [|d s IH]; intros [|k]; try reflexivity.
  cbn [replace_from skipn]. apply IH.
Qed.

Lemma replace_skip (o : N) (old new : pystr) (c : N) (s : pystr) :
  startswith (o :: old) (c :: s) = false ->
  replace (o :: old) new (c :: s) = c :: replace (o :: old) new s.
Proof.
  intros H. unfold replace. cbn [replace_from]. rewrite H. reflexivity.
Qed.

Lemma get_set_eq (V : Type) (d : PyDict.dict V) (k : pystr) (v : V) :
  PyDict.get (PyDict.set d k v) k = Some v.
Proof.
  induction d as [|[k' v'] d IH]; simpl.
  - rewrite eqb_refl. reflexivity.
  - destruct (PyStr.eqb k' k) eqn:Hk; simpl; rewrite Hk; auto.
Qed.

Lemma get_set_ne (V : Type) (d : PyDict.dict V) (k k' : pystr) (v : V) :
  k <> k' -> PyDict.get (PyDict.set d k v) k' = PyDict.get d k'.
Proof.
  intros Hne. induction d as [|[k0 v0] d IH]; simpl.
  - apply eqb_neq in Hne. rewrite Hne. reflexivity.
  - destruct (PyStr.eqb k0 k) eqn:Hk; simpl.
    + apply eqb_eq in Hk. subst k0. apply eqb_neq in Hne.
      rewrite Hne. reflexivity.
    + rewrite IH. reflexivity.
Qed.

(** ** The extractor returns a result or reports *)

Lemma say_written (E : env) (lines : list pystr) (w : world) :
  written (snd (say E lines w)) = written w.
Proof.
  revert w. induction lines as [|line lines IH]; intros w; [reflexivity|].
  cbn [say]. destruct (stdout_write E (stdout w) line); [reflexivity|].
  rewrite IH. reflexivity.
Qed.

Lemma after_saying_written (A : Type) (E : env) (lines : list pystr)
    (r : exn + A) (w : world) :
  written (snd (after_saying E lines r w)) = written w.
Proof.
  unfold after_saying. pose proof (say_written E lines w) as H.
  destruct (say E lines w) as [[e|] w']; exact H.
Qed.

Lemma say_works (E : env) (lines : list pystr) (w : world) :
  stdout_works E ->
  say E lines w = (None, World (stdout w ++ lines) (written w)).
Proof.
  intros HE. revert w. induction lines as [|line lines IH]; intros w.
  - cbn [say]. rewrite app_nil_r. destruct w; reflexivity.
  - cbn [say]. rewrite HE, IH. cbn [stdout written].
    rewrite <- app_assoc. reflexivity.
Qed.

Section Extraction.

Context {PF : PyFloat}.

Lemma extract_ok (E : env) (path : pystr) (w : world) (html : pystr)
    (soup : node) :
  open_read E path = Ok html ->
  BeautifulSoup E html = Ok soup ->
  extract_house_sales_info E path w
  = (inr (Some (extract_from_soup (now_text E) soup)), w).
Proof.
  intros Hr Hp. unfold extract_house_sales_info, try_except, bind, call.
  rewrite Hr. unfold ret at 1. rewrite Hp. reflexivity.
Qed.

Lemma extract_read_error (E : env) (path : pystr) (w : world)
    (str_e : pystr) :
  open_read E path = Raises str_e ->
  extract_house_sales_info E path w
  = after_saying E [extraction_diagnostic str_e] (inr None) w.
Proof.
  intros Hr. unfold extract_house_sales_info, try_except, bind, call.
  rewrite Hr. unfold raise, print, after_saying, extraction_diagnostic.
  cbn [say].
  destruct (stdout_write E (stdout w) (lit "提取过程中发生错误: " ++ str_e));
    reflexivity.
Qed.

Lemma extract_parse_error (E : env) (path : pystr) (w : world)
    (html str_e : pystr) :
  open_read E path = Ok html ->
  BeautifulSoup E html = Raises str_e ->
  extract_house_sales_info E path w
  = after_saying E [extraction_diagnostic str_e] (inr None) w.
Proof.
  intros Hr Hp. unfold extract_house_sales_info, try_except, bind, call.
  rewrite Hr. unfold ret at 1. rewrite Hp.
  unfold raise, print, after_saying, extraction_diagnostic. cbn [say].
  destruct (stdout_write E (stdout w) (lit "提取过程中发生错误: " ++ str_e));
    reflexivity.
Qed.

Lemma after_saying_not_some (E : env) (lines : list pystr) (w w' : world)
    (r : result) :
  after_saying E lines (inr None) w <> (inr (Some r), w').
Proof.
  unfold after_saying. destruct (say E lines w) as [[e|] w1]; discriminate.
Qed.

Lemma extract_success_inv (E : env) (path : pystr) (w w' : world)
    (r : result) :
  extract_house_sales_info E path w = (inr (Some r), w') ->
  exists html soup,
    open_read E path = Ok html /\ BeautifulSoup E html = Ok soup
    /\ r = extract_from_soup (now_text E) soup /\ w' = w.
Proof.
  intros H.
  destruct (open_read E path) as [html|e] eqn:Hr.
  - destruct (BeautifulSoup E html) as [soup|e] eqn:Hp.
    + rewrite (extract_ok _ _ w Hr Hp) in H. inversion H.
      exists html, soup. auto.
    + rewrite (extract_parse_error _ _ w Hr Hp) in H.
      apply after_saying_not_some in H. contradiction.
  - rewrite (extract_read_error _ _ w Hr) in H.
    apply after_saying_not_some in H. contradiction.
Qed.

Lemma after_saying_one (A : Type) (E : env) (line : pystr) (r : exn + A)
    (w : world) :
  (stdout_write E (stdout w) line = None ->
   after_saying E [line] r w
   = (r, World (stdout w ++ [line]) (written w)))
  /\ (forall str_e,
         stdout_write E (stdout w) line = Some str_e ->
         after_saying E [line] r w = (inl (Exception str_e), w)).
Proof.
  unfold after_saying. cbn [say].
  destruct (stdout_write E (stdout w) line) as [e|].
  - split; [discriminate|]. intros e' He. inversion He. reflexivity.
  - split; [reflexivity | discriminate].
Qed.

(** C7, as the script has it: when the file is read and parsed, the
    extractor returns a complete result and prints nothing.  When reading
    or parsing raises, the error is caught and the extractor prints one
    line, 提取过程中发生错误: followed by the text of the error; if the
    standard output takes that line, the extractor returns [None]; if the
    standard output refuses it, the exception of the standard output
    leaves the extractor and nothing is printed.  There is no other
    outcome. *)
Theorem extraction_returns_or_reports (E : env) (path : pystr) (w : world) :
  (exists html soup,
      open_read E path = Ok html /\ BeautifulSoup E html = Ok soup
      /\ extract_house_sales_info E path w
         = (inr (Some (extract_from_soup (now_text E) soup)), w))
  \/ (exists str_e,
        (open_read E path = Raises str_e
         \/ exists html,
              open_read E path = Ok html
              /\ BeautifulSoup E html = Raises str_e)
        /\ (stdout_write E (stdout w) (extraction_diagnostic str_e) = None ->
            extract_house_sales_info E path w
            = (inr None,
               World (stdout w ++ [extraction_diagnostic str_e])
                 (written w)))
        /\ (forall str_e',
               stdout_write E (stdout w) (extraction_diagnostic str_e)
               = Some str_e' ->
               extract_house_sales_info E path w
               = (inl (Exception str_e'), w))).
Proof.
  destruct (open_read E path) as [html|e] eqn:Hr.
  - destruct (BeautifulSoup E html) as [soup|e] eqn:Hp.
    + left. exists html, soup.
      split; [reflexivity|]. split; [assumption|].
      eapply extract_ok; eassumption.
    + right. exists e. split; [right; exists html; auto|].
      rewrite (extract_parse_error _ _ w Hr Hp). apply after_saying_one.
  - right. exists e. split; [left; reflexivity|].
    rewrite (extract_read_error _ _ w Hr). apply after_saying_one.
Qed.

End Extraction.

Lemma extraction_returns_or_reports_witness :
  let E := Sample.env_of (Raises (lit "bad markup")) (fun _ _ => None) in
  stdout_write E (stdout Sample.world0)
    (extraction_diagnostic (lit "bad markup")) = None
  /\ extract_house_sales_info (PF := Binary64.binary64) E (lit "page.html")
       Sample.world0
     = (inr None, World [extraction_diagnostic (lit "bad markup")] []).
Proof.
  intros E.
  assert (H : stdout_write E (stdout Sample.world0)
                (extraction_diagnostic (lit "bad markup")) = None)
    by reflexivity.
  split; [exact H|].
  destruct (extraction_returns_or_reports (PF := Binary64.binary64) E
              (lit "page.html") Sample.world0)
    as [[html [soup [_ [Hp _]]]] | [e [[Hr | [html [Hr Hp]]] [Hok _]]]].
  - discriminate Hp.
  - discriminate Hr.
  - assert (He : e = lit "bad markup") by (inversion Hp; reflexivity).
    subst e. exact (Hok H).
Defined.

(** C7, as it is worded, fails: parsing raises, the standard output cannot
    encode the diagnostic line, and the extractor neither returns a result
    nor returns [None]: the exception of the standard output reaches the
    caller. *)
Lemma diagnostic_refused_counterexample :
  (exists html,
      open_read Sample.unparsable_on_ascii (lit "page.html") = Ok html
      /\ BeautifulSoup Sample.unparsable_on_ascii html
         = Raises (lit "bad markup"))
  /\ extract_house_sales_info (PF := Binary64.binary64)
       Sample.unparsable_on_ascii (lit "page.html") Sample.world0
     = (inl (Exception (lit "'ascii' codec can't encode characters")),
        Sample.world0).
Proof.
  split; [exists (lit "<html>"); split; reflexivity|].
  vm_compute. reflexivity.
Qed.

(** ** The unit rows *)

Lemma fold_append_row (rows : list located)
    (acc : list (PyDict.dict pystr)) :
  fold_left append_row rows acc = acc ++ retained rows.
Proof.
  revert acc. induction rows as [|row rows IH]; intros acc; simpl.
  - rewrite app_nil_r. reflexivity.
  - rewrite IH. unfold append_row.
    destruct (row_house_info row); simpl.
    + rewrite <- app_assoc. reflexivity.
    + reflexivity.
Qed.

Lemma extract_house_details_retained (soup : node) :
  extract_house_details soup = retained (table_rows soup).
Proof. unfold extract_house_details. apply fold_append_row. Qed.

Lemma get_cell_field_ne (d : PyDict.dict pystr) (key k' : pystr)
    (c : located) :
  key <> k' -> PyDict.get (cell_field d key c) k' = PyDict.get d k'.
Proof.
  intros Hne. unfold cell_field.
  destruct (find K.div (Some (class_equal K.cell)) (here c));
    [apply get_set_ne; assumption | reflexivity].
Qed.

Lemma room_of_build_house_info (c0 c1 c2 c3 c4 : located) :
  PyDict.get (build_house_info c0 c1 c2 c3 c4) K.room
  = match find K.div (Some (class_equal K.cell)) (here c0) with
    | Some cell_div => Some (get_text_strip (here cell_div))
    | None => None
    end.
Proof.
  unfold build_house_info.
  rewrite !get_cell_field_ne by (apply eqb_neq; reflexivity).
  unfold cell_field.
  destruct (find K.div (Some (class_equal K.cell)) (here c0));
    [apply get_set_eq | reflexivity].
Qed.

Lemma truthy_iff (s : pystr) : truthy s = true <-> s <> [].
Proof. destruct s; simpl; split; congruence. Qed.

(** C3: the unit sequence holds, in document order, one record for each
    data row that has at least five cells and a non-empty stripped
    identifier in the wrapper of its first cell, and nothing for any other
    row; the record of a retained row carries that identifier. *)
Theorem row_retained_iff :
  (forall soup : node, extract_house_details soup = retained (table_rows soup))
  /\ (forall row : located,
        (exists h, row_house_info row = Some h)
        <-> (5 <= length (row_cells row)
             /\ exists ident,
                  unit_identifier row = Some ident /\ ident <> []))
  /\ (forall (row : located) (h : PyDict.dict pystr),
        row_house_info row = Some h ->
        PyDict.get h K.room = unit_identifier row).
Proof.
  split; [exact extract_house_details_retained|]. split.
  - intros row. unfold row_house_info, unit_identifier.
    destruct (row_cells row) as [|c0 [|c1 [|c2 [|c3 [|c4 rest]]]]];
      try (split; [intros [h H]; discriminate
                  | intros [Hlen _]; simpl in Hlen; lia]).
    unfold has_room. rewrite room_of_build_house_info.
    destruct (find K.div (Some (class_equal K.cell)) (here c0)) as [d|].
    + destruct (truthy (get_text_strip (here d))) eqn:Ht.
      * split; [intros _|intros _; eexists; reflexivity].
        split; [simpl; lia|]. eexists. split; [reflexivity|].
        apply truthy_iff. exact Ht.
      * split; [intros [h H]; discriminate|].
        intros [_ [ident [Hi Hne]]]. inversion Hi. subst ident.
        apply truthy_iff in Hne. congruence.
    + split; [intros [h H]; discriminate|].
      intros [_ [ident [Hi _]]]. discriminate.
  - intros row h. unfold row_house_info, unit_identifier.
    destruct (row_cells row) as [|c0 [|c1 [|c2 [|c3 [|c4 rest]]]]];
      try discriminate.
    destruct (has_room _); [|discriminate].
    intros H. inversion H. apply room_of_build_house_info.
Qed.

(** A row of four cells and a row with a blank identifier leave no trace. *)
Example short_and_blank_rows_dropped :
  map (fun h => PyDict.get h K.room) (extract_house_details Sample.page)
  = [Some (lit "1-101"); Some (lit "1-102")]
  /\ length (table_rows Sample.page) = 4.
Proof. split; reflexivity. Qed.

(** ** Statistics *)

Lemma field_is_true_iff (key value : pystr) (h : PyDict.dict pystr) :
  field_is key value h = true <-> PyDict.get h key = Some value.
Proof.
  unfold field_is. destruct (PyDict.get h key) as [v|].
  - rewrite eqb_eq. split; congruence.
  - split; discriminate.
Qed.

Lemma field_is_false_iff (key value : pystr) (h : PyDict.dict pystr) :
  field_is key value h = false <-> PyDict.get h key <> Some value.
Proof.
  rewrite <- field_is_true_iff. destruct (field_is key value h);
    split; congruence.
Qed.

Lemma count_where_insert (key value : pystr)
    (hs1 hs2 : list (PyDict.dict pystr)) (h : PyDict.dict pystr) :
  count_where key value (hs1 ++ h :: hs2)
  = (count_where key value (hs1 ++ hs2)
     + if field_is key value h then 1 else 0)%Z.
Proof.
  unfold count_where. rewrite !filter_app. cbn [filter].
  destruct (field_is key value h); rewrite !length_app; cbn [length]; lia.
Qed.

Lemma count_where_bounds (key value : pystr)
    (hs : list (PyDict.dict pystr)) :
  (0 <= count_where key value hs <= Z.of_nat (length hs))%Z.
Proof.
  unfold count_where. pose proof (filter_length_le (field_is key value) hs).
  lia.
Qed.

Section Statistics.

Context {PF : PyFloat}.

(** C1: when the extraction succeeds, the unsold count of its statistics
    is the total count minus the sold count, and the total count is the
    length of the unit sequence of the result, which is the sequence of the
    retained rows of the document. *)
Theorem statistics_invariant (E : env) (path : pystr) (w w' : world)
    (r : result) :
  extract_house_sales_info E path w = (inr (Some r), w') ->
  (unsold_count (stats r) = total_count (stats r) - sold_count (stats r)
   /\ unsold_count (stats r) + sold_count (stats r) = total_count (stats r)
   /\ total_count (stats r) = Z.of_nat (length (house_details r))
   /\ exists html soup,
        open_read E path = Ok html /\ BeautifulSoup E html = Ok soup
        /\ house_details r = retained (table_rows soup))%Z.
Proof.
  intros H. apply extract_success_inv in H
    as [html [soup [Hr [Hp [-> _]]]]].
  cbn [extract_from_soup build_result stats house_details
       unsold_count total_count sold_count].
  repeat split; try lia.
  exists html, soup. auto using extract_house_details_retained.
Qed.

(** C10: a unit adds one to the sold count exactly when its sale status is
    the string 已售 and one to the mortgaged count exactly when its mortgage
    status is the string 是; with any other value, or without the field, it
    adds one to the unsold count and nothing to the mortgaged count. *)
Theorem status_counts_exact (now : pystr) (info : PyDict.dict pystr)
    (hs1 hs2 : list (PyDict.dict pystr)) (h : PyDict.dict pystr) :
  let st' := stats (build_result now info (hs1 ++ h :: hs2)) in
  let st := stats (build_result now info (hs1 ++ hs2)) in
  ((PyDict.get h K.sold = Some K.sold_yes ->
    sold_count st' = sold_count st + 1
    /\ unsold_count st' = unsold_count st)
   /\ (PyDict.get h K.sold <> Some K.sold_yes ->
       sold_count st' = sold_count st
       /\ unsold_count st' = unsold_count st + 1)
   /\ (PyDict.get h K.mortgage = Some K.mortgage_yes ->
       mortgaged_count st' = mortgaged_count st + 1)
   /\ (PyDict.get h K.mortgage <> Some K.mortgage_yes ->
       mortgaged_count st' = mortgaged_count st))%Z.
Proof.
  cbn [build_result stats sold_count unsold_count mortgaged_count].
  rewrite !count_where_insert, !length_app. cbn [length].
  split; [|split; [|split]]; intros H.
  - apply field_is_true_iff in H. rewrite H. lia.
  - apply field_is_false_iff in H. rewrite H. lia.
  - apply field_is_true_iff in H. rewrite H. lia.
  - apply field_is_false_iff in H. rewrite H. lia.
Qed.

End Statistics.

Lemma statistics_invariant_witness :
  let E := Sample.env_of (Ok Sample.page) (fun _ _ => None) in
  let r := extract_from_soup (now_text E) Sample.page in
  extract_house_sales_info E (lit "page.html") Sample.world0
  = (inr (Some r), Sample.world0)
  /\ unsold_count (stats r) = (total_count (stats r) - sold_count (stats r))%Z
  /\ total_count (stats r) = Z.of_nat (length (house_details r)).
Proof.
  intros E r.
  assert (H : extract_house_sales_info E (lit "page.html") Sample.world0
              = (inr (Some r), Sample.world0)) by (vm_compute; reflexivity).
  split; [exact H|].
  destruct (statistics_invariant E (lit "page.html") Sample.world0 H)
    as [H1 [_ [H3 _]]].
  split; [exact H1 | exact H3].
Defined.

Lemma status_counts_exact_witness :
  let unit := [(K.room, lit "1-101"); (K.sold, lit "已售")] in
  let st' := stats (build_result [] [] ([] ++ unit :: [])) in
  let st := stats (build_result [] [] ([] ++ [])) in
  PyDict.get unit K.sold = Some K.sold_yes
  /\ sold_count st' = (sold_count st + 1)%Z
  /\ unsold_count st' = unsold_count st.
Proof.
  intros unit st' st.
  assert (H : PyDict.get unit K.sold = Some K.sold_yes) by reflexivity.
  split; [exact H|].
  destruct (status_counts_exact (PF := Binary64.binary64) [] [] [] [] unit)
    as [H1 _].
  exact (H1 H).
Defined.

(** The scenario of one sold and one mortgaged unit; a missing status and
    a status that only contains the word count as unsold, unmortgaged. *)
Example status_counts_examples :
  let st := stats (extract_from_soup [] Sample.page) in
  (total_count st, sold_count st, unsold_count st, mortgaged_count st)
  = (2, 1, 1, 1)%Z
  /\ (let others :=
        [[(K.room, lit "1")];
         [(K.room, lit "2"); (K.sold, lit "已售出");
          (K.mortgage, lit "是的")]] in
      let st := stats (build_result [] [] others) in
      (total_count st, sold_count st, unsold_count st, mortgaged_count st)
      = (2, 0, 2, 0)%Z).
Proof. split; vm_compute; reflexivity. Qed.

(** ** Basic information *)

Lemma find_some_split (A : Type) (f : A -> bool) (l : list A) (x : A) :
  List.find f l = Some x ->
  exists before after,
    l = before ++ x :: after
    /\ Forall (fun y => f y = false) before /\ f x = true.
Proof.
  induction l as [|y l IH]; simpl; [discriminate|].
  destruct (f y) eqn:Hy.
  - intros H. inversion H. subst y. exists [], l.
    split; [reflexivity|]. split; [constructor | assumption].
  - intros H. destruct (IH H) as [before [after [-> [Hb Hx]]]].
    exists (y :: before), after.
    split; [reflexivity|]. split; [constructor; assumption | assumption].
Qed.

Lemma find_none_forall (A : Type) (f : A -> bool) (l : list A) :
  List.find f l = None -> Forall (fun y => f y = false) l.
Proof.
  induction l as [|y l IH]; simpl; [constructor|].
  destruct (f y) eqn:Hy; [discriminate|]. auto.
Qed.

(** C2, as the script has it: a label is paired with the first of its
    following siblings that is a content element, however many other
    nodes stand in between; a label none of whose following siblings is a
    content element changes nothing. *)
Theorem label_pairs_with_first_content_sibling
    (info : PyDict.dict pystr) (label : located) :
  (exists before content after,
      next_siblings label = before ++ content :: after
      /\ Forall (fun n => is_content n = false) before
      /\ is_content content = true
      /\ label_step info label
         = assign_field info (get_text_strip (here label))
             (get_text_strip content))
  \/ (Forall (fun n => is_content n = false) (next_siblings label)
      /\ label_step info label = info).
Proof.
  assert (Hc : content_of label
               = List.find is_content (next_siblings label))
    by reflexivity.
  unfold label_step. rewrite Hc.
  destruct (List.find is_content (next_siblings label)) as [c|] eqn:Hf.
  - left. destruct (find_some_split _ _ Hf) as [b [a [H1 [H2 H3]]]].
    exists b, c, a. repeat split; assumption || reflexivity.
  - right. split; [apply find_none_forall; assumption | reflexivity].
Qed.

(** C2, as it is worded, fails: here another element stands between the
    label and the content element, and the field is set all the same. *)
Lemma adjacent_pairing_counterexample :
  exists label,
    label_elements Sample.apart = [label]
    /\ immediate_content_sibling label = None
    /\ label_step PyDict.empty label
       = [(K.project_name, lit "阳光花园")]
    /\ labelled_info Sample.apart = [(K.project_name, lit "阳光花园")].
Proof.
  eexists. split; [vm_compute; reflexivity|].
  repeat split; vm_compute; reflexivity.
Qed.

Lemma assign_field_first_match (info : PyDict.dict pystr)
    (label_text content_text : pystr) :
  assign_field info label_text content_text
  = match first_match label_text with
    | Some k => PyDict.set info k content_text
    | None => info
    end.
Proof.
  unfold assign_field, first_match, known_fields. cbn [List.find].
  repeat match goal with
         | |- context [if contains ?k label_text then _ else _] =>
           destruct (contains k label_text)
         end; reflexivity.
Qed.

Lemma label_step_assignment (info : PyDict.dict pystr) (label : located) :
  label_step info label
  = match assignment label with
    | Some (k, v) => PyDict.set info k v
    | None => info
    end.
Proof.
  unfold label_step, assignment. destruct (content_of label); [|reflexivity].
  rewrite assign_field_first_match.
  destruct (first_match (get_text_strip (here label))); reflexivity.
Qed.

Lemma first_match_some (label_text k : pystr) :
  first_match label_text = Some k ->
  exists before after,
    known_fields = before ++ k :: after
    /\ Forall (fun k' => contains k' label_text = false) before
    /\ exists l r, label_text = l ++ k ++ r.
Proof.
  intros H. apply find_some_split in H as [b [a [H1 [H2 H3]]]].
  exists b, a. split; [assumption|]. split; [assumption|].
  apply contains_spec. assumption.
Qed.

Lemma fold_label_step_keeps (labels : list located)
    (info : PyDict.dict pystr) (k v : pystr) :
  Forall (fun l => forall v', assignment l <> Some (k, v')) labels ->
  PyDict.get info k = Some v ->
  PyDict.get (fold_left label_step labels info) k = Some v.
Proof.
  intros HF. revert info. induction HF as [|l labels Hl _ IH];
    intros info Hget; simpl; [assumption|].
  apply IH. rewrite label_step_assignment.
  destruct (assignment l) as [[k' v']|]; [|assumption].
  rewrite get_set_ne; [assumption|]. intros ->. apply (Hl v'). reflexivity.
Qed.

Lemma fold_label_step_last (labels1 labels2 : list located)
    (label : located) (info : PyDict.dict pystr) (k v : pystr) :
  assignment label = Some (k, v) ->
  Forall (fun l => forall v', assignment l <> Some (k, v')) labels2 ->
  PyDict.get (fold_left label_step (labels1 ++ label :: labels2) info) k
  = Some v.
Proof.
  intros Ha HF. rewrite fold_left_app. cbn [fold_left].
  apply fold_label_step_keeps; [assumption|].
  rewrite label_step_assignment, Ha. apply get_set_eq.
Qed.

(** C5, as the script has it: a label that has a content element sets one
    field, the first of the five names, in the order of the script, that
    occurs anywhere in its stripped text (so 项目名称: sets the project
    name), and no other; the value a field ends with is that of the last
    label, in document order, that sets it. *)
Theorem label_sets_first_name_last_label_wins :
  (forall (info : PyDict.dict pystr) (label : located),
      label_step info label
      = match assignment label with
        | Some (k, v) => PyDict.set info k v
        | None => info
        end)
  /\ (forall (label : located) (k v : pystr),
         assignment label = Some (k, v) <->
         exists content,
           content_of label = Some content
           /\ v = get_text_strip content
           /\ first_match (get_text_strip (here label)) = Some k)
  /\ (forall label_text k : pystr,
         first_match label_text = Some k ->
         exists before after,
           known_fields = before ++ k :: after
           /\ Forall (fun k' => contains k' label_text = false) before
           /\ exists l r, label_text = l ++ k ++ r)
  /\ first_match (lit "项目名称:") = Some K.project_name
  /\ (forall (soup : node) (labels1 labels2 : list located)
        (label : located) (k v : pystr),
         label_elements soup = labels1 ++ label :: labels2 ->
         assignment label = Some (k, v) ->
         Forall (fun l => forall v', assignment l <> Some (k, v')) labels2 ->
         PyDict.get (labelled_info soup) k = Some v).
Proof.
  split; [exact label_step_assignment|]. split.
  { intros label k v. unfold assignment.
    destruct (content_of label) as [c|].
    - destruct (first_match (get_text_strip (here label))) as [k0|].
      + split.
        * intros H. inversion H. exists c. repeat split; reflexivity.
        * intros [c' [H1 [H2 H3]]]. inversion H1. inversion H3. subst.
          reflexivity.
      + split; [discriminate|]. intros [c' [_ [_ H]]]. discriminate.
    - split; [discriminate|]. intros [c' [H _]]. discriminate. }
  split; [exact first_match_some|].
  split; [vm_compute; reflexivity|].
  intros soup l1 l2 label k v Hl Ha HF. unfold labelled_info.
  rewrite Hl. apply fold_label_step_last; assumption.
Qed.

Lemma label_sets_first_name_last_label_wins_witness :
  let labels := label_elements Sample.twice in
  let first := nth 0 labels (Located (Comment []) []) in
  let second := nth 1 labels (Located (Comment []) []) in
  labels = [first] ++ second :: []
  /\ assignment second = Some (K.project_name, lit "海河新城")
  /\ PyDict.get (labelled_info Sample.twice) K.project_name
     = Some (lit "海河新城").
Proof.
  intros labels first second.
  assert (H1 : label_elements Sample.twice = [first] ++ second :: [])
    by (vm_compute; reflexivity).
  assert (H2 : assignment second = Some (K.project_name, lit "海河新城"))
    by (vm_compute; reflexivity).
  split; [exact H1|]. split; [exact H2|].
  destruct label_sets_first_name_last_label_wins as [_ [_ [_ [_ Hlast]]]].
  exact (Hlast Sample.twice [first] [] second _ _ H1 H2 (Forall_nil _)).
Defined.

(** C5, as it is worded, fails: this label has a content element and its
    text contains 房屋坐落, yet that field is not set, because the text
    contains 项目名称 too. *)
Lemma every_name_counterexample :
  exists label content,
    label_elements Sample.two_names = [label]
    /\ content_of label = Some content
    /\ contains K.location (get_text_strip (here label)) = true
    /\ PyDict.get (labelled_info Sample.two_names) K.location = None
    /\ labelled_info Sample.two_names = [(K.project_name, lit "阳光花园")].
Proof.
  do 2 eexists. split; [vm_compute; reflexivity|].
  split; [vm_compute; reflexivity|].
  repeat split; vm_compute; reflexivity.
Qed.

(** Two labels for one field: the later one wins. *)
Example last_label_wins :
  labelled_info Sample.twice = [(K.project_name, lit "海河新城")].
Proof. vm_compute. reflexivity. Qed.

Lemma mem_false_iff (V : Type) (d : PyDict.dict V) (k : pystr) :
  PyDict.mem d k = false <-> PyDict.get d k = None.
Proof.
  unfold PyDict.mem. destruct (PyDict.get d k); split; congruence.
Qed.

(** The title element an hypothesis speaks of is the one that was found. *)
Ltac only_title :=
  match goal with
  | H : Some _ = Some _ |- _ => inversion H; subst; clear H
  end.

(** C6, as the script has it: the title is consulted exactly when the
    labels left the project name unset.  When the stripped text of the
    first title element contains the phrase 商品房销售许可证信息, the
    project name becomes that text with the phrase taken out and the rest
    stripped, provided the rest is not empty; a title without the phrase
    sets nothing; no other field changes.  For the title
    阳光花园商品房销售许可证信息 the name is 阳光花园. *)
Theorem title_fallback_spec (soup : node) (info : PyDict.dict pystr) :
  (PyDict.mem info K.project_name = true -> title_fallback soup info = info)
  /\ (PyDict.mem info K.project_name = false ->
      forall t,
        find K.title None soup = Some t ->
        contains K.title_phrase (get_text_strip (here t)) = true ->
        title_remainder (get_text_strip (here t)) <> [] ->
        title_fallback soup info
        = PyDict.set info K.project_name
            (title_remainder (get_text_strip (here t))))
  /\ (PyDict.mem info K.project_name = false ->
      forall v,
        PyDict.get (title_fallback soup info) K.project_name = Some v ->
        exists t,
          find K.title None soup = Some t
          /\ contains K.title_phrase (get_text_strip (here t)) = true
          /\ v = title_remainder (get_text_strip (here t))
          /\ v <> [])
  /\ (forall t,
        find K.title None soup = Some t ->
        contains K.title_phrase (get_text_strip (here t)) = false ->
        title_fallback soup info = info)
  /\ (forall k,
        k <> K.project_name ->
        PyDict.get (title_fallback soup info) k = PyDict.get info k)
  /\ (PyDict.mem info K.project_name = false ->
      forall t,
        find K.title None soup = Some t ->
        get_text_strip (here t) = lit "阳光花园商品房销售许可证信息" ->
        PyDict.get (title_fallback soup info) K.project_name
        = Some (lit "阳光花园")).
Proof.
  unfold title_fallback. fold title_remainder.
  destruct (PyDict.mem info K.project_name) eqn:Hm; cbn [negb].
  { repeat (split; [first [reflexivity | discriminate]|]). discriminate. }
  apply mem_false_iff in Hm.
  split; [discriminate|].
  destruct (find K.title None soup) as [t|].
  2: { repeat split; intros; first [discriminate | congruence]. }
  change (strip (replace K.title_phrase [] (get_text_strip (here t))))
    with (title_remainder (get_text_strip (here t))).
  destruct (contains K.title_phrase (get_text_strip (here t))) eqn:Hc.
  2: { repeat split; intros; try only_title;
       first [reflexivity | congruence
             | match goal with
               | H : get_text_strip _ = _ |- _ =>
                 rewrite H in Hc; discriminate
               end]. }
  destruct (truthy (title_remainder (get_text_strip (here t)))) eqn:Ht.
  - split; [|split; [|split; [|split]]].
    + intros _ t' Ht' _ _. only_title. reflexivity.
    + intros _ v Hv. rewrite get_set_eq in Hv. inversion Hv.
      exists t. repeat split; try assumption.
      apply truthy_iff. assumption.
    + intros t' Ht' Hc'. only_title. congruence.
    + intros k Hk. apply get_set_ne. congruence.
    + intros _ t' Ht' Htxt. only_title.
      rewrite get_set_eq, Htxt. reflexivity.
  - split; [|split; [|split; [|split]]].
    + intros _ t' Ht' _ Hne. only_title.
      apply truthy_iff in Hne. congruence.
    + intros _ v Hv. congruence.
    + reflexivity.
    + reflexivity.
    + intros _ t' Ht' Htxt. only_title.
      rewrite Htxt in Ht. discriminate.
Qed.

Lemma title_fallback_spec_witness :
  let info := labelled_info Sample.page in
  let t := match find K.title None Sample.page with
           | Some t => t
           | None => Located (Comment []) []
           end in
  PyDict.mem info K.project_name = false
  /\ find K.title None Sample.page = Some t
  /\ get_text_strip (here t) = lit "阳光花园商品房销售许可证信息"
  /\ PyDict.get (title_fallback Sample.page info) K.project_name
     = Some (lit "阳光花园").
Proof.
  intros info t.
  assert (H1 : PyDict.mem info K.project_name = false) by reflexivity.
  assert (H2 : find K.title None Sample.page = Some t) by reflexivity.
  assert (H3 : get_text_strip (here t)
               = lit "阳光花园商品房销售许可证信息")
    by (vm_compute; reflexivity).
  split; [exact H1|]. split; [exact H2|]. split; [exact H3|].
  destruct (title_fallback_spec Sample.page info) as [_ [_ [_ [_ [_ H]]]]].
  exact (H H1 t H2 H3).
Defined.

(** C6, as it is worded, fails: this page has no project-name label, so
    the title is consulted; its title does not contain the phrase, so the
    title with the phrase taken out and stripped is the title itself,
    which is not empty; yet no project name is set. *)
Lemma title_without_phrase_counterexample :
  exists t,
    find K.title None Sample.other_title = Some t
    /\ PyDict.mem (labelled_info Sample.other_title) K.project_name = false
    /\ title_remainder (get_text_strip (here t)) = lit "阳光花园公示"
    /\ PyDict.get
         (title_fallback Sample.other_title
            (labelled_info Sample.other_title)) K.project_name = None.
Proof.
  eexists. split; [vm_compute; reflexivity|].
  repeat split; vm_compute; reflexivity.
Qed.

(** The page of the samples has no project-name label; its name comes
    from its title. *)
Example title_fallback_on_page :
  PyDict.get (labelled_info Sample.page) K.project_name = None
  /\ PyDict.get (title_fallback Sample.page (labelled_info Sample.page))
       K.project_name = Some (lit "阳光花园").
Proof. split; vm_compute; reflexivity. Qed.

(** ** The total area *)

Section Area.

Context {PF : PyFloat}.

Lemma area_value_replace (area_text : pystr) :
  area_value area_text
  = float_of_str (replace K.square_metre [] area_text).
Proof.
  unfold area_value.
  destruct (contains K.square_metre area_text) eqn:H; [reflexivity|].
  rewrite replace_absent by assumption. reflexivity.
Qed.

Lemma area_step_spec (total_area : float) (house : PyDict.dict pystr) :
  area_step total_area house
  = match PyDict.get_default house K.area [] with
    | [] => total_area
    | (_ :: _) as area_text =>
      match float_of_str (replace K.square_metre [] area_text) with
      | Some v => float_add total_area v
      | None => total_area
      end
    end.
Proof.
  unfold area_step. destruct (PyDict.get_default house K.area []);
    [reflexivity|].
  cbn [truthy]. rewrite area_value_replace. reflexivity.
Qed.

Lemma compute_total_area_snoc (hs : list (PyDict.dict pystr))
    (h : PyDict.dict pystr) :
  compute_total_area (hs ++ [h]) = area_step (compute_total_area hs) h.
Proof. unfold compute_total_area. rewrite fold_left_app. reflexivity. Qed.

End Area.

(** C4, as the script has it: the area text of a unit has every
    occurrence of 平方米 taken out, wherever it stands, and what is left is
    given to [float]; its value is added to the running total; a unit whose
    area text is missing or empty, or is refused by [float], leaves the
    total as it is and the loop goes on with the next unit.  With binary64
    floats, 89.5平方米 adds 89.5 and abc adds nothing. *)
Theorem area_contribution :
  (forall (PF : PyFloat) (total_area : float) (house : PyDict.dict pystr),
      area_step total_area house
      = match PyDict.get_default house K.area [] with
        | [] => total_area
        | (_ :: _) as area_text =>
          match float_of_str (replace K.square_metre [] area_text) with
          | Some v => float_add total_area v
          | None => total_area
          end
        end)
  /\ (forall (PF : PyFloat) (hs : list (PyDict.dict pystr))
        (h : PyDict.dict pystr),
         compute_total_area (hs ++ [h])
         = area_step (compute_total_area hs) h)
  /\ @area_value Binary64.binary64 (lit "89.5平方米")
     = Some (SpecFloat.S754_finite false (179 * 2 ^ 45) (-46))
  /\ @area_value Binary64.binary64 (lit "abc") = None
  /\ @compute_total_area Binary64.binary64 [Sample.house "abc"]
     = SpecFloat.S754_zero false
  /\ @compute_total_area Binary64.binary64
       [Sample.house "abc"; Sample.house "89.5平方米"]
     = SpecFloat.S754_finite false (179 * 2 ^ 45) (-46).
Proof.
  split; [intros; apply area_step_spec|].
  split; [intros; apply compute_total_area_snoc|].
  repeat split; vm_compute; reflexivity.
Qed.

(** C4, as it is worded, fails: in this area text the unit of measure is
    not a suffix, so removing a suffix leaves a text that [float] refuses,
    yet the script adds 89.5 for it. *)
Lemma suffix_only_counterexample :
  endswith K.square_metre (lit "平方米89.5") = false
  /\ @suffix_area_value Binary64.binary64 (lit "平方米89.5") = None
  /\ @area_value Binary64.binary64 (lit "平方米89.5")
     = Some (SpecFloat.S754_finite false (179 * 2 ^ 45) (-46))
  /\ @compute_total_area Binary64.binary64 [Sample.house "平方米89.5"]
     = SpecFloat.S754_finite false (179 * 2 ^ 45) (-46).
Proof. repeat split; vm_compute; reflexivity. Qed.

(** The total of the sample page, as its statistics show it. *)
Example total_area_of_page :
  total_area_text (stats (extract_from_soup [] Sample.page))
  = lit "89.50平方米".
Proof. vm_compute. reflexivity. Qed.

(** ** Writing the report *)

Lemma endswith_app (p s : pystr) : endswith p (s ++ p) = true.
Proof. apply endswith_spec. exists s. reflexivity. Qed.

Lemma write_output_spec (E : env) (data : result) (output_file : pystr)
    (w : world) :
  write_output E data output_file w
  = match open_write E (destination output_file)
            (payload data output_file) with
    | Written =>
      (inr (destination output_file),
       with_file w (destination output_file) (payload data output_file))
    | OpenFails str_e => (inl (Exception str_e), w)
    | WriteFails str_e =>
      (inl (Exception str_e),
       with_file w (destination output_file)
         (CutShort (payload data output_file)))
    end.
Proof.
  unfold write_output, destination, payload.
  destruct (endswith (lit ".json") output_file);
    [|destruct (endswith (lit ".txt") output_file)];
    unfold bind, write_file, with_file;
    match goal with
    | |- context [open_write E ?p ?c] => destruct (open_write E p c)
    end; reflexivity.
Qed.

Lemma save_to_file_spec (E : env) (data : result) (output_file : pystr)
    (w : world) :
  save_to_file E data output_file w
  = save_outcome E (destination output_file) (payload data output_file) w.
Proof.
  unfold save_to_file, try_except. unfold bind at 1.
  rewrite write_output_spec. unfold save_outcome.
  destruct (open_write E (destination output_file)
              (payload data output_file)) as [|e|e].
  - unfold print at 1. unfold saved_message. cbn [say].
    destruct (stdout_write E
                (stdout (with_file w (destination output_file)
                           (payload data output_file)))
                (lit "数据已成功保存到: " ++ destination output_file))
      as [e|]; [|reflexivity].
    unfold print, after_saying, save_diagnostic. cbn [say].
    destruct (stdout_write E _ _); reflexivity.
  - unfold print, after_saying, save_diagnostic. cbn [say].
    destruct (stdout_write E _ _); reflexivity.
  - unfold print, after_saying, save_diagnostic. cbn [say].
    destruct (stdout_write E _ _); reflexivity.
Qed.

Lemma save_outcome_works (E : env) (path : pystr) (content : file_content)
    (w : world) :
  stdout_works E ->
  save_outcome E path content w
  = match open_write E path content with
    | Written =>
      (inr tt,
       World (stdout w ++ [saved_message path])
         (PyDict.set (written w) path content))
    | OpenFails str_e =>
      (inr tt, World (stdout w ++ [save_diagnostic str_e]) (written w))
    | WriteFails str_e =>
      (inr tt,
       World (stdout w ++ [save_diagnostic str_e])
         (PyDict.set (written w) path (CutShort content)))
    end.
Proof.
  intros HE. unfold save_outcome, after_saying.
  destruct (open_write E path content); rewrite say_works by assumption;
    reflexivity.
Qed.

Lemma save_outcome_written (E : env) (path : pystr)
    (content : file_content) (w : world) :
  written (snd (save_outcome E path content w))
  = match open_write E path content with
    | Written => PyDict.set (written w) path content
    | OpenFails _ => written w
    | WriteFails _ => PyDict.set (written w) path (CutShort content)
    end.
Proof.
  unfold save_outcome. destruct (open_write E path content).
  - pose proof (say_written E [saved_message path]
                  (with_file w path content)) as H.
    destruct (say E [saved_message path] (with_file w path content))
      as [[e|] w'].
    + rewrite after_saying_written. exact H.
    + exact H.
  - apply after_saying_written.
  - rewrite after_saying_written. reflexivity.
Qed.

Section ExitStatus.

Context {PF : PyFloat}.

Lemma print_works (E : env) (line : pystr) (w : world) :
  stdout_works E ->
  print E line w = (inr tt, World (stdout w ++ [line]) (written w)).
Proof. intros HE. unfold print. rewrite HE. reflexivity. Qed.

Lemma extract_by_cases (E : env) (path : pystr) (w : world) :
  stdout_works E ->
  (extraction_succeeds E path = true
   /\ exists r, extract_house_sales_info E path w = (inr (Some r), w))
  \/ (extraction_succeeds E path = false
      /\ exists w', extract_house_sales_info E path w = (inr None, w')).
Proof.
  intros HE. unfold extraction_succeeds.
  destruct (open_read E path) as [html|e] eqn:Hr.
  - destruct (BeautifulSoup E html) as [soup|e] eqn:Hp.
    + left. split; [reflexivity|]. eexists.
      eapply extract_ok; eassumption.
    + right. split; [reflexivity|]. eexists.
      rewrite (extract_parse_error _ _ w Hr Hp).
      unfold after_saying. rewrite say_works by assumption. reflexivity.
  - right. split; [reflexivity|]. eexists.
    rewrite (extract_read_error _ _ w Hr).
    unfold after_saying. rewrite say_works by assumption. reflexivity.
Qed.

Lemma main_exit_status (E : env) (a : args) (w : world) :
  stdout_works E ->
  exit_status (fst (main E a w))
  = if path_exists E (html_file a)
       && extraction_succeeds E (html_file a)
    then 0%Z else 1%Z.
Proof.
  intros HE. unfold main.
  destruct (path_exists E (html_file a)); cbn [negb andb].
  - unfold bind at 1. unfold ret at 1. unfold bind at 1.
    rewrite print_works by assumption. unfold bind at 1.
    match goal with
    | |- context [extract_house_sales_info E (html_file a) ?w1] =>
      destruct (extract_by_cases (html_file a) w1 HE)
        as [[Hs [r Hr]] | [Hs [w' Hr]]]; rewrite Hr, Hs
    end.
    + do 4 (unfold bind at 1; rewrite print_works by assumption).
      rewrite save_to_file_spec, save_outcome_works by assumption.
      match goal with
      | |- context [open_write E ?p ?c] => destruct (open_write E p c)
      end; reflexivity.
    + unfold bind at 1. rewrite print_works by assumption. reflexivity.
  - unfold bind at 1. unfold bind at 1.
    rewrite print_works by assumption. reflexivity.
Qed.

(** C8, as the script has it: an error of the write, be it raised when the
    file is opened or later, is caught in [save_to_file], which then
    prints one line, 保存文件时发生错误: followed by the text of the error;
    the call returns normally when the standard output takes that line,
    and ends with the exception of the standard output when it refuses
    it.  On a standard output that takes every line, [save_to_file] always
    returns normally and the exit status of the process is 0 exactly when
    the input file exists and was read and parsed, whatever happens to the
    write. *)
Theorem write_errors_are_reported_only :
  (forall (E : env) (data : result) (output_file : pystr) (w : world)
      (str_e : pystr),
      open_write E (destination output_file) (payload data output_file)
      = OpenFails str_e ->
      save_to_file E data output_file w
      = after_saying E [save_diagnostic str_e] (inr tt) w)
  /\ (forall (E : env) (data : result) (output_file : pystr) (w : world)
        (str_e : pystr),
         open_write E (destination output_file) (payload data output_file)
         = WriteFails str_e ->
         save_to_file E data output_file w
         = after_saying E [save_diagnostic str_e] (inr tt)
             (with_file w (destination output_file)
                (CutShort (payload data output_file))))
  /\ (forall (E : env) (data : result) (output_file : pystr) (w : world),
         stdout_works E ->
         fst (save_to_file E data output_file w) = inr tt)
  /\ (forall (E : env) (a : args) (w : world),
         stdout_works E ->
         exit_status (fst (main E a w))
         = if path_exists E (html_file a)
              && extraction_succeeds E (html_file a)
           then 0%Z else 1%Z)
  /\ (forall (E : env) (f : pystr -> file_content -> write_outcome)
        (a : args) (w : world),
         stdout_works E ->
         exit_status (fst (main (with_open_write E f) a w))
         = exit_status (fst (main E a w))).
Proof.
  split; [|split; [|split; [|split]]].
  - intros E data output_file w e He. rewrite save_to_file_spec.
    unfold save_outcome. rewrite He. reflexivity.
  - intros E data output_file w e He. rewrite save_to_file_spec.
    unfold save_outcome. rewrite He. reflexivity.
  - intros E data output_file w HE.
    rewrite save_to_file_spec, save_outcome_works by assumption.
    destruct (open_write E _ _); reflexivity.
  - intros E a w HE. apply main_exit_status. assumption.
  - intros E f a w HE.
    rewrite !main_exit_status; [reflexivity | assumption|].
    intros printed line. apply HE.
Qed.

End ExitStatus.

Lemma write_errors_are_reported_only_witness :
  let E := Sample.env_of (Ok Sample.page)
             (fun _ _ => Some (lit "Permission denied")) in
  let data := extract_from_soup (PF := Binary64.binary64) (now_text E)
                Sample.page in
  stdout_works E
  /\ open_write E (destination (lit "units.json"))
       (payload data (lit "units.json"))
     = OpenFails (lit "Permission denied")
  /\ save_to_file E data (lit "units.json") Sample.world0
     = (inr tt, World [save_diagnostic (lit "Permission denied")] [])
  /\ exit_status
       (fst (main (PF := Binary64.binary64) E
               (Args (lit "page.html") (Some (lit "units.json")))
               Sample.world0)) = 0%Z.
Proof.
  intros E data.
  assert (HE : stdout_works E) by (intros printed line; reflexivity).
  assert (Hw : open_write E (destination (lit "units.json"))
                 (payload data (lit "units.json"))
               = OpenFails (lit "Permission denied")) by reflexivity.
  destruct (write_errors_are_reported_only (PF := Binary64.binary64))
    as [Hopen [_ [_ [Hexit _]]]].
  split; [exact HE|]. split; [exact Hw|]. split.
  - rewrite (Hopen E data (lit "units.json") Sample.world0 _ Hw).
    reflexivity.
  - rewrite (Hexit E _ Sample.world0 HE). reflexivity.
Defined.

(** C8, as it is worded, fails: the output file cannot be opened and the
    text of that error has a character the standard output cannot encode,
    so the diagnostic line is refused: the exception leaves
    [save_to_file], and the exit status is 1 although the input was read
    and parsed; with a write that succeeds the same run exits with 0. *)
Lemma write_error_escapes_counterexample :
  let a := Args (lit "page.html") (Some (lit "🏠.json")) in
  let data := extract_from_soup (PF := Binary64.binary64)
                (now_text Sample.locked_house) Sample.page in
  path_exists Sample.locked_house (html_file a) = true
  /\ extraction_succeeds Sample.locked_house (html_file a) = true
  /\ save_to_file Sample.locked_house data (lit "🏠.json") Sample.world0
     = (inl (Exception (lit "'gbk' codec can't encode character")),
        Sample.world0)
  /\ exit_status
       (fst (main (PF := Binary64.binary64) Sample.locked_house a
               Sample.world0)) = 1%Z
  /\ exit_status
       (fst (main (PF := Binary64.binary64)
               (with_open_write Sample.locked_house (fun _ _ => Written))
               a Sample.world0)) = 0%Z.
Proof. split; [|split; [|split; [|split]]]; vm_compute; reflexivity. Qed.

(** C9: for a path that ends in neither [.json] nor [.txt], the call of
    [save_to_file] does exactly what the call with [.json] appended to
    the path does: the one file it writes is the JSON dump of the data at
    the path with [.json] appended.  When the write succeeds that file
    holds the dump, and the call returns normally after the line that
    names the path if the standard output takes it; when the file cannot
    be opened the call returns normally after the diagnostic line if the
    standard output takes it.  On a standard output that takes every line
    the call returns normally whatever the write does. *)
Theorem other_extension_writes_json (E : env) (data : result)
    (output_file : pystr) (w : world) :
  endswith (lit ".json") output_file = false ->
  endswith (lit ".txt") output_file = false ->
  destination output_file = output_file ++ lit ".json"
  /\ payload data output_file = JsonDump data
  /\ save_to_file E data output_file w
     = save_outcome E (output_file ++ lit ".json") (JsonDump data) w
  /\ save_to_file E data output_file w
     = save_to_file E data (output_file ++ lit ".json") w
  /\ (open_write E (output_file ++ lit ".json") (JsonDump data) = Written ->
      PyDict.get (written (snd (save_to_file E data output_file w)))
        (output_file ++ lit ".json") = Some (JsonDump data)
      /\ (stdout_write E (stdout w)
            (saved_message (output_file ++ lit ".json")) = None ->
          save_to_file E data output_file w
          = (inr tt,
             World (stdout w ++ [saved_message (output_file ++ lit ".json")])
               (PyDict.set (written w) (output_file ++ lit ".json")
                  (JsonDump data)))))
  /\ (forall str_e,
         open_write E (output_file ++ lit ".json") (JsonDump data)
         = OpenFails str_e ->
         stdout_write E (stdout w) (save_diagnostic str_e) = None ->
         save_to_file E data output_file w
         = (inr tt,
            World (stdout w ++ [save_diagnostic str_e]) (written w)))
  /\ (stdout_works E ->
      save_to_file E data output_file w
      = match open_write E (output_file ++ lit ".json") (JsonDump data) with
        | Written =>
          (inr tt,
           World (stdout w ++ [saved_message (output_file ++ lit ".json")])
             (PyDict.set (written w) (output_file ++ lit ".json")
                (JsonDump data)))
        | OpenFails str_e =>
          (inr tt, World (stdout w ++ [save_diagnostic str_e]) (written w))
        | WriteFails str_e =>
          (inr tt,
           World (stdout w ++ [save_diagnostic str_e])
             (PyDict.set (written w) (output_file ++ lit ".json")
                (CutShort (JsonDump data))))
        end).
Proof.
  intros Hj Ht.
  assert (Hd : destination output_file = output_file ++ lit ".json")
    by (unfold destination; rewrite Hj, Ht; reflexivity).
  assert (Hp : payload data output_file = JsonDump data)
    by (unfold payload; rewrite Hj, Ht; reflexivity).
  assert (Hd' : destination (output_file ++ lit ".json")
                = output_file ++ lit ".json")
    by (unfold destination; rewrite endswith_app; reflexivity).
  assert (Hp' : payload data (output_file ++ lit ".json") = JsonDump data)
    by (unfold payload; rewrite endswith_app; reflexivity).
  rewrite !save_to_file_spec, Hd, Hp, Hd', Hp'.
  split; [reflexivity|]. split; [reflexivity|]. split; [reflexivity|].
  split; [reflexivity|]. split; [|split].
  - intros Hw. split.
    + rewrite save_outcome_written, Hw. apply get_set_eq.
    + intros Hs. unfold save_outcome. rewrite Hw. cbn [say].
      unfold with_file. cbn [stdout written]. rewrite Hs. reflexivity.
  - intros e Hw Hs. unfold save_outcome. rewrite Hw.
    apply after_saying_one. assumption.
  - intros HE. apply save_outcome_works. assumption.
Qed.

Lemma other_extension_writes_json_witness :
  let E := Sample.env_of (Ok Sample.page) (fun _ _ => None) in
  let data := extract_from_soup (now_text E) Sample.page in
  endswith (lit ".json") (lit "report.csv") = false
  /\ endswith (lit ".txt") (lit "report.csv") = false
  /\ save_to_file E data (lit "report.csv") Sample.world0
     = (inr tt,
        World [saved_message (lit "report.csv.json")]
          [(lit "report.csv.json", JsonDump data)]).
Proof.
  intros E data.
  split; [reflexivity|]. split; [reflexivity|].
  destruct (other_extension_writes_json E data (lit "report.csv")
              Sample.world0 eq_refl eq_refl) as [_ [_ [_ [_ [H _]]]]].
  destruct (H eq_refl) as [_ H'].
  rewrite (H' eq_refl). reflexivity.
Defined.

(** A failed write: a diagnostic, no file, and the exit status of a
    successful extraction. *)
Example failed_write_on_page :
  let E := Sample.env_of (Ok Sample.page)
             (fun _ _ => Some (lit "Permission denied")) in
  let run := main E (Args (lit "page.html") None) Sample.world0 in
  exit_status (fst run) = 0%Z
  /\ written (snd run) = []
  /\ last (stdout (snd run)) [] = save_diagnostic (lit "Permission denied").
Proof. split; [|split]; vm_compute; reflexivity. Qed.

(** * Further properties *)

(** ** The runs of [main] *)

(** One step through a sequence of prints: the next line is taken or
    refused. *)
Ltac next_line :=
  cbn [say stdout written];
  match goal with
  | |- context [match stdout_write ?E ?h ?l with _ => _ end] =>
    destruct (stdout_write E h l)
  end.

Lemma after_saying_exit (E : env) (lines : list pystr) (code : Z)
    (w : world) :
  exit_status (fst (after_saying E lines (inl (SystemExit code)) w))
  = code
  \/ exit_status (fst (after_saying E lines (inl (SystemExit code)) w))
     = 1%Z.
Proof.
  unfold after_saying. destruct (say E lines w) as [[e|] w'];
    [right | left]; reflexivity.
Qed.

Section Runs.

Context {PF : PyFloat}.

(** X1: when the input file does not exist, [main] prints the one line
    that names it and exits with status 1: that is the result when the
    standard output takes the line; should the standard output refuse it,
    its exception ends the run, again with status 1.  Nothing is read,
    and no file changes. *)
Theorem main_missing_input (E : env) (a : args) (w : world) :
  path_exists E (html_file a) = false ->
  main E a w
  = after_saying E [missing_message (html_file a)] (inl (SystemExit 1)) w
  /\ (stdout_write E (stdout w) (missing_message (html_file a)) = None ->
      main E a w
      = (inl (SystemExit 1),
         World (stdout w ++ [missing_message (html_file a)]) (written w)))
  /\ exit_status (fst (main E a w)) = 1%Z
  /\ written (snd (main E a w)) = written w.
Proof.
  intros H.
  assert (Hm : main E a w
               = after_saying E [missing_message (html_file a)]
                   (inl (SystemExit 1)) w).
  { unfold main. rewrite H. cbn [negb].
    unfold bind at 1. unfold bind at 1. unfold print at 1.
    unfold after_saying, missing_message, raise.
    next_line; reflexivity. }
  rewrite Hm. split; [reflexivity|]. split; [|split].
  - apply after_saying_one.
  - destruct (after_saying_exit E [missing_message (html_file a)] 1 w);
      assumption.
  - apply after_saying_written.
Qed.

Lemma main_after_check (E : env) (a : args) (w : world) :
  path_exists E (html_file a) = true ->
  main E a w
  = match say E [processing_message (html_file a)] w with
    | (Some str_e, w') => (inl (Exception str_e), w')
    | (None, w') =>
      (data <- extract_house_sales_info E (html_file a) ;;
       match data with
       | Some data =>
         print E (lit "成功提取到 " ++ str_of_int (total_count (stats data))
                  ++ lit " 套房屋信息") ;;;
         print E (lit "已售房屋: " ++ str_of_int (sold_count (stats data))
                  ++ lit " 套") ;;;
         print E (lit "未售房屋: " ++ str_of_int (unsold_count (stats data))
                  ++ lit " 套") ;;;
         print E (lit "抵押房屋: "
                  ++ str_of_int (mortgaged_count (stats data))
                  ++ lit " 套") ;;;
         save_to_file E data (output_path E a)
       | None =>
         print E (lit "提取失败，请检查HTML文件格式") ;;;
         raise (SystemExit 1)
       end) w'
    end.
Proof.
  intros H. unfold main. rewrite H. cbn [negb].
  unfold bind at 1. unfold ret at 1. unfold bind at 1. unfold print at 1.
  unfold processing_message. next_line; reflexivity.
Qed.

(** X2: when the input file exists but cannot be read or parsed, [main]
    prints the processing line, the line 提取过程中发生错误: with the text
    of the error, and the failure line, and exits with status 1: that is
    the result on a standard output that takes every line; should the
    standard output refuse one of the three, its exception ends the run
    there, again with status 1.  No file changes. *)
Theorem main_extraction_failure (E : env) (a : args) (w : world)
    (str_e : pystr) :
  path_exists E (html_file a) = true ->
  (open_read E (html_file a) = Raises str_e
   \/ exists html_content,
        open_read E (html_file a) = Ok html_content
        /\ BeautifulSoup E html_content = Raises str_e) ->
  let lines := [processing_message (html_file a);
                extraction_diagnostic str_e;
                failure_message] in
  main E a w = after_saying E lines (inl (SystemExit 1)) w
  /\ (stdout_works E ->
      main E a w
      = (inl (SystemExit 1), World (stdout w ++ lines) (written w)))
  /\ exit_status (fst (main E a w)) = 1%Z
  /\ written (snd (main E a w)) = written w.
Proof.
  intros Hx Hfail lines.
  assert (Hm : main E a w = after_saying E lines (inl (SystemExit 1)) w).
  { rewrite main_after_check by assumption. unfold after_saying, lines.
    next_line; [reflexivity|].
    unfold bind at 1.
    assert (He : forall w1,
               extract_house_sales_info E (html_file a) w1
               = after_saying E [extraction_diagnostic str_e] (inr None) w1).
    { intros w1. destruct Hfail as [Hr | [html [Hr Hp]]].
      - apply extract_read_error. assumption.
      - eapply extract_parse_error; eassumption. }
    rewrite He. unfold after_saying.
    next_line; [reflexivity|].
    unfold bind, print, raise, failure_message.
    next_line; reflexivity. }
  rewrite Hm. split; [reflexivity|]. split; [|split].
  - intros HE. unfold after_saying. rewrite say_works by assumption.
    reflexivity.
  - destruct (after_saying_exit E lines 1 w); assumption.
  - apply after_saying_written.
Qed.

Lemma main_parsed (E : env) (a : args) (w : world)
    (html_content : pystr) (soup : node) :
  path_exists E (html_file a) = true ->
  open_read E (html_file a) = Ok html_content ->
  BeautifulSoup E html_content = Ok soup ->
  main E a w
  = match say E (processing_message (html_file a)
                   :: summary_lines
                        (stats (extract_from_soup (now_text E) soup))) w with
    | (None, w') =>
      save_outcome E (destination (output_path E a))
        (payload (extract_from_soup (now_text E) soup) (output_path E a)) w'
    | (Some str_e, w') => (inl (Exception str_e), w')
    end.
Proof.
  intros Hx Hr Hp.
  rewrite main_after_check by assumption.
  unfold summary_lines.
  next_line; [reflexivity|].
  unfold bind at 1. rewrite (extract_ok _ _ _ Hr Hp).
  unfold bind at 1. unfold print at 1. next_line; [reflexivity|].
  unfold bind at 1. unfold print at 1. next_line; [reflexivity|].
  unfold bind at 1. unfold print at 1. next_line; [reflexivity|].
  unfold bind at 1. unfold print at 1. next_line; [reflexivity|].
  cbn [say]. apply save_to_file_spec.
Qed.

(** X3: when the input file exists and is read and parsed, [main] prints
    the processing line and the four summary lines and then saves the
    result to the output path, which comes to what [save_outcome]
    describes for the destination of that path; should the standard
    output refuse one of the five lines, its exception ends the run there
    and nothing is saved.  On a standard output that takes every line the
    run returns normally: after a write that succeeds the destination
    holds the payload and the last line names the destination; after a
    write that fails the last line is the diagnostic, and the destination
    is as it was when it could not be opened and cut short otherwise. *)
Theorem main_success (E : env) (a : args) (w : world)
    (html_content : pystr) (soup : node) :
  path_exists E (html_file a) = true ->
  open_read E (html_file a) = Ok html_content ->
  BeautifulSoup E html_content = Ok soup ->
  let data := extract_from_soup (now_text E) soup in
  let target := destination (output_path E a) in
  let content := payload data (output_path E a) in
  let lines := processing_message (html_file a)
                 :: summary_lines (stats data) in
  main E a w
  = match say E lines w with
    | (None, w') => save_outcome E target content w'
    | (Some str_e, w') => (inl (Exception str_e), w')
    end
  /\ (stdout_works E ->
      main E a w
      = match open_write E target content with
        | Written =>
          (inr tt,
           World ((stdout w ++ lines) ++ [saved_message target])
             (PyDict.set (written w) target content))
        | OpenFails str_e =>
          (inr tt,
           World ((stdout w ++ lines) ++ [save_diagnostic str_e])
             (written w))
        | WriteFails str_e =>
          (inr tt,
           World ((stdout w ++ lines) ++ [save_diagnostic str_e])
             (PyDict.set (written w) target (CutShort content)))
        end).
Proof.
  intros Hx Hr Hp data target content lines.
  rewrite (main_parsed E a w Hx Hr Hp). fold data target content lines.
  split; [reflexivity|].
  intros HE. rewrite say_works, save_outcome_works by assumption.
  reflexivity.
Qed.

(** X4: without an output option, or with an empty one, the output path
    is the input path's root followed by _销售信息.json, and
    [save_to_file] writes the JSON dump at exactly that path, to which
    nothing is appended: when the write succeeds, that file holds the
    dump afterwards.  So a run of [main] on an input that is read and
    parsed prints its five lines and saves the JSON dump of the result
    there. *)
Theorem default_output_is_json (E : env) (a : args) (data : result)
    (w : world) :
  output a = None \/ output a = Some [] ->
  let default := splitext_root E (html_file a) ++ lit "_销售信息.json" in
  output_path E a = default
  /\ save_to_file E data (output_path E a) w
     = save_outcome E default (JsonDump data) w
  /\ (open_write E default (JsonDump data) = Written ->
      PyDict.get (written (snd (save_to_file E data (output_path E a) w)))
        default
      = Some (JsonDump data))
  /\ (forall html_content soup,
         path_exists E (html_file a) = true ->
         open_read E (html_file a) = Ok html_content ->
         BeautifulSoup E html_content = Ok soup ->
         main E a w
         = match say E (processing_message (html_file a)
                          :: summary_lines
                               (stats (extract_from_soup (now_text E) soup)))
                   w with
           | (None, w') =>
             save_outcome E default
               (JsonDump (extract_from_soup (now_text E) soup)) w'
           | (Some str_e, w') => (inl (Exception str_e), w')
           end).
Proof.
  intros H default.
  assert (Hp : output_path E a = default).
  { unfold output_path, default. destruct H as [-> | ->]; reflexivity. }
  assert (He : endswith (lit ".json") default = true).
  { apply endswith_spec.
    exists (splitext_root E (html_file a) ++ lit "_销售信息").
    unfold default. rewrite <- app_assoc. reflexivity. }
  assert (Hd : destination default = default)
    by (unfold destination; rewrite He; reflexivity).
  assert (Hc : forall d, payload d default = JsonDump d)
    by (intros d; unfold payload; rewrite He; reflexivity).
  rewrite save_to_file_spec, Hp, Hd, Hc.
  split; [reflexivity|]. split; [reflexivity|]. split.
  - intros Hw. rewrite save_outcome_written, Hw. apply get_set_eq.
  - intros html_content soup Hx Hr Hs.
    rewrite (main_parsed E a w Hx Hr Hs), Hp, Hd, Hc. reflexivity.
Qed.

End Runs.

(** ** Where the report goes *)

Lemma destination_recognised (output_file : pystr) :
  endswith (lit ".json") (destination output_file) = true
  \/ endswith (lit ".txt") (destination output_file) = true.
Proof.
  unfold destination.
  destruct (endswith (lit ".json") output_file) eqn:Hj; [left; assumption|].
  destruct (endswith (lit ".txt") output_file) eqn:Ht;
    [right; assumption|].
  left. apply endswith_app.
Qed.

Lemma default_output_is_json_witness :
  let E := Sample.env_of (Ok Sample.page) (fun _ _ => None) in
  let a := Args (lit "page.html") (Some []) in
  let data := extract_from_soup (PF := Binary64.binary64) (now_text E)
                Sample.page in
  (output a = None \/ output a = Some [])
  /\ open_write E (lit "page_销售信息.json") (JsonDump data) = Written
  /\ output_path E a = lit "page_销售信息.json"
  /\ PyDict.get
       (written (snd (save_to_file E data (output_path E a) Sample.world0)))
       (lit "page_销售信息.json")
     = Some (JsonDump data).
Proof.
  intros E a data.
  assert (H : output a = None \/ output a = Some []) by (right; reflexivity).
  assert (Hw : open_write E (lit "page_销售信息.json") (JsonDump data)
               = Written) by reflexivity.
  split; [exact H|]. split; [exact Hw|].
  destruct (default_output_is_json (PF := Binary64.binary64) E a data
              Sample.world0 H) as [Hp [_ [Hg _]]].
  split; [exact Hp | exact (Hg Hw)].
Defined.

(** X7: a call of [save_to_file] changes no file other than the
    destination of the given path; the destination afterwards holds what
    it held before (the file could not be opened), the payload chosen for
    the path (the write succeeded), or a beginning of that payload (the
    write failed after the file was opened); and the call prints at most
    one line, and exactly one, the line that names the destination or a
    diagnostic, on a standard output that takes every line. *)
Theorem save_to_file_frame (E : env) (data : result) (output_file : pystr)
    (w : world) :
  let w' := snd (save_to_file E data output_file w) in
  (forall q,
      q <> destination output_file ->
      PyDict.get (written w') q = PyDict.get (written w) q)
  /\ (PyDict.get (written w') (destination output_file)
      = PyDict.get (written w) (destination output_file)
      \/ PyDict.get (written w') (destination output_file)
         = Some (payload data output_file)
      \/ PyDict.get (written w') (destination output_file)
         = Some (CutShort (payload data output_file)))
  /\ (stdout w' = stdout w \/ exists line, stdout w' = stdout w ++ [line])
  /\ (stdout_works E ->
      exists line,
        stdout w' = stdout w ++ [line]
        /\ (line = saved_message (destination output_file)
            \/ exists str_e, line = save_diagnostic str_e)).
Proof.
  cbv zeta. rewrite save_to_file_spec. split; [|split; [|split]].
  - intros q Hq. rewrite save_outcome_written.
    destruct (open_write E _ _); [|reflexivity|];
      apply get_set_ne; congruence.
  - rewrite save_outcome_written.
    destruct (open_write E _ _);
      [right; left | left | right; right];
      first [apply get_set_eq | reflexivity].
  - unfold save_outcome, after_saying.
    destruct (open_write E _ _); unfold with_file;
      repeat next_line; cbn [snd stdout];
      first [left; reflexivity | right; eexists; reflexivity].
  - intros HE. rewrite save_outcome_works by assumption.
    destruct (open_write E _ _) as [|e|e]; cbn [snd stdout];
      eexists; (split; [reflexivity|]);
      first [left; reflexivity | right; exists e; reflexivity].
Qed.

(** X5: a file that a call of [save_to_file] changes has a path that ends
    in [.json] or in [.txt]; and for a path that ends in neither, saving
    to the path with [.json] appended does exactly what saving to the
    path itself does. *)
Theorem destination_is_recognised (E : env) (data : result)
    (output_file : pystr) (w : world) :
  (forall q,
      PyDict.get (written (snd (save_to_file E data output_file w))) q
      <> PyDict.get (written w) q ->
      endswith (lit ".json") q = true \/ endswith (lit ".txt") q = true)
  /\ (endswith (lit ".json") output_file = false ->
      endswith (lit ".txt") output_file = false ->
      save_to_file E data (output_file ++ lit ".json") w
      = save_to_file E data output_file w).
Proof.
  split.
  - intros q Hq.
    destruct (list_eq_dec N.eq_dec q (destination output_file)) as [-> | Hne].
    + apply destination_recognised.
    + exfalso. apply Hq. rewrite save_to_file_spec, save_outcome_written.
      destruct (open_write E _ _); [|reflexivity|];
        apply get_set_ne; congruence.
  - intros Hj Ht. rewrite !save_to_file_spec. unfold destination, payload.
    rewrite Hj, Ht, endswith_app. reflexivity.
Qed.

(** X6: a path that ends in [.json] is written with the JSON dump and a
    path that ends in [.txt] with the text report, both at the path as
    given; when the write succeeds and the standard output takes the
    line, the call returns after printing 数据已成功保存到: followed by
    that path. *)
Theorem recognised_extension_keeps_path (E : env) (data : result)
    (output_file : pystr) (w : world) :
  (endswith (lit ".json") output_file = true ->
   save_to_file E data output_file w
   = save_outcome E output_file (JsonDump data) w
   /\ (open_write E output_file (JsonDump data) = Written ->
       stdout_write E (stdout w) (saved_message output_file) = None ->
       save_to_file E data output_file w
       = (inr tt,
          World (stdout w ++ [saved_message output_file])
            (PyDict.set (written w) output_file (JsonDump data)))))
  /\ (endswith (lit ".json") output_file = false ->
      endswith (lit ".txt") output_file = true ->
      save_to_file E data output_file w
      = save_outcome E output_file (TextFile (text_report data)) w
      /\ (open_write E output_file (TextFile (text_report data)) = Written ->
          stdout_write E (stdout w) (saved_message output_file) = None ->
          save_to_file E data output_file w
          = (inr tt,
             World (stdout w ++ [saved_message output_file])
               (PyDict.set (written w) output_file
                  (TextFile (text_report data)))))).
Proof.
  split.
  - intros Hj. rewrite save_to_file_spec. unfold destination, payload.
    rewrite Hj. split; [reflexivity|].
    intros Hw Hs. unfold save_outcome. rewrite Hw. cbn [say].
    unfold with_file. cbn [stdout written]. rewrite Hs. reflexivity.
  - intros Hj Ht. rewrite save_to_file_spec. unfold destination, payload.
    rewrite Hj, Ht. split; [reflexivity|].
    intros Hw Hs. unfold save_outcome. rewrite Hw. cbn [say].
    unfold with_file. cbn [stdout written]. rewrite Hs. reflexivity.
Qed.

Lemma recognised_extension_keeps_path_witness :
  let E := Sample.env_of (Ok Sample.page) (fun _ _ => None) in
  let data := extract_from_soup (now_text E) Sample.page in
  endswith (lit ".json") (lit "units.txt") = false
  /\ endswith (lit ".txt") (lit "units.txt") = true
  /\ open_write E (lit "units.txt") (TextFile (text_report data)) = Written
  /\ save_to_file E data (lit "units.txt") Sample.world0
     = (inr tt,
        World [saved_message (lit "units.txt")]
          [(lit "units.txt", TextFile (text_report data))]).
Proof.
  intros E data.
  split; [reflexivity|]. split; [reflexivity|]. split; [reflexivity|].
  destruct (recognised_extension_keeps_path E data (lit "units.txt")
              Sample.world0) as [_ H].
  destruct (H eq_refl eq_refl) as [_ H'].
  rewrite (H' eq_refl eq_refl). reflexivity.
Defined.

(** ** What the extractor stores *)

Lemma get_cell_field_eq (d : PyDict.dict pystr) (key : pystr) (c : located) :
  PyDict.get d key = None ->
  PyDict.get (cell_field d key c) key = wrapper_text c.
Proof.
  intros Hd. unfold cell_field, wrapper_text.
  destruct (find K.div (Some (class_equal K.cell)) (here c));
    [apply get_set_eq | assumption].
Qed.

Lemma keys_set (V : Type) (d : PyDict.dict V) (k : pystr) (v : V) :
  keys (PyDict.set d k v)
  = if PyDict.mem d k then keys d else keys d ++ [k].
Proof.
  unfold keys, PyDict.mem. induction d as [|[k' v'] d IH]; [reflexivity|].
  cbn [PyDict.set PyDict.get]. destruct (PyStr.eqb k' k) eqn:Hk.
  - reflexivity.
  - cbn [map fst]. rewrite IH. destruct (PyDict.get d k); reflexivity.
Qed.

Lemma mem_true_iff_in_keys (V : Type) (d : PyDict.dict V) (k : pystr) :
  PyDict.mem d k = true <-> In k (keys d).
Proof.
  unfold keys, PyDict.mem. induction d as [|[k' v'] d IH].
  - simpl. split; [discriminate | tauto].
  - cbn [PyDict.get map fst In]. destruct (PyStr.eqb k' k) eqn:Hk.
    + apply eqb_eq in Hk. tauto.
    + apply eqb_neq in Hk. rewrite IH. tauto.
Qed.

(** X8: the record of a retained row is read by position from its first
    five cells: every one of the five keys holds the stripped text of the
    wrapper of its cell and is absent when that cell has no wrapper; cells
    after the fifth are not looked at. *)
Theorem house_fields_by_position (row : located)
    (h : PyDict.dict pystr) :
  row_house_info row = Some h ->
  exists c0 c1 c2 c3 c4 rest,
    row_cells row = c0 :: c1 :: c2 :: c3 :: c4 :: rest
    /\ PyDict.get h K.room = wrapper_text c0
    /\ PyDict.get h K.area = wrapper_text c1
    /\ PyDict.get h K.price = wrapper_text c2
    /\ PyDict.get h K.sold = wrapper_text c3
    /\ PyDict.get h K.mortgage = wrapper_text c4
    /\ forall k, PyDict.get h k <> None -> In k unit_fields.
Proof.
  unfold row_house_info.
  destruct (row_cells row) as [|c0 [|c1 [|c2 [|c3 [|c4 rest]]]]];
    try discriminate.
  destruct (has_room _); [|discriminate].
  intros H. inversion H. clear H.
  exists c0, c1, c2, c3, c4, rest. split; [reflexivity|].
  unfold build_house_info.
  repeat split.
  - rewrite !get_cell_field_ne by (apply eqb_neq; reflexivity).
    apply get_cell_field_eq. reflexivity.
  - rewrite !get_cell_field_ne by (apply eqb_neq; reflexivity).
    apply get_cell_field_eq.
    rewrite get_cell_field_ne by (apply eqb_neq; reflexivity). reflexivity.
  - rewrite !get_cell_field_ne by (apply eqb_neq; reflexivity).
    apply get_cell_field_eq.
    rewrite !get_cell_field_ne by (apply eqb_neq; reflexivity). reflexivity.
  - rewrite !get_cell_field_ne by (apply eqb_neq; reflexivity).
    apply get_cell_field_eq.
    rewrite !get_cell_field_ne by (apply eqb_neq; reflexivity). reflexivity.
  - apply get_cell_field_eq.
    rewrite !get_cell_field_ne by (apply eqb_neq; reflexivity). reflexivity.
  - intros k Hk.
    destruct (in_dec (list_eq_dec N.eq_dec) k unit_fields) as [Hin|Hout];
      [assumption|].
    exfalso. apply Hk.
    rewrite !get_cell_field_ne; [reflexivity | | | | |];
      intros <-; apply Hout; unfold unit_fields; simpl; tauto.
Qed.

Lemma house_fields_by_position_witness :
  let row := nth 0 (table_rows Sample.page) (Located (Comment []) []) in
  let h := match row_house_info row with Some h => h | None => [] end in
  row_house_info row = Some h
  /\ forall k, PyDict.get h k <> None -> In k unit_fields.
Proof.
  intros row h.
  assert (H : row_house_info row = Some h) by (vm_compute; reflexivity).
  split; [exact H|].
  destruct (house_fields_by_position row H)
    as [c0 [c1 [c2 [c3 [c4 [rest [_ [_ [_ [_ [_ [_ Hk]]]]]]]]]]]].
  exact Hk.
Defined.

(** ** Stripped text *)

Lemma lstrip_spec (s : pystr) :
  exists ws,
    s = ws ++ lstrip s
    /\ Forall (fun c => isspace c = true) ws
    /\ match lstrip s with
       | [] => True
       | c :: _ => isspace c = false
       end.
Proof.
  induction s as [|c s IH].
  - exists []. repeat split. constructor.
  - cbn [lstrip]. destruct (isspace c) eqn:Hc.
    + destruct IH as [ws [H1 [H2 H3]]]. exists (c :: ws).
      split; [cbn [app]; rewrite <- H1; reflexivity|].
      split; [constructor; assumption | assumption].
    + exists []. split; [reflexivity|].
      split; [constructor | assumption].
Qed.

Lemma last_default_irrelevant (A : Type) (l : list A) (d d' : A) :
  l <> [] -> last l d = last l d'.
Proof.
  induction l as [|x l IH]; [congruence|]. intros _.
  destruct l as [|y l]; [reflexivity|].
  cbn [last]. apply IH. discriminate.
Qed.

Lemma last_app_nonempty (A : Type) (l1 l2 : list A) (d : A) :
  l2 <> [] -> last (l1 ++ l2) d = last l2 d.
Proof.
  intros H2. induction l1 as [|x l1 IH]; [reflexivity|].
  cbn [app]. destruct (l1 ++ l2) eqn:Happ.
  - apply app_eq_nil in Happ as [_ ->]. congruence.
  - cbn [last]. exact IH.
Qed.

Lemma strip_trimmed (s : pystr) : trimmed (strip s).
Proof.
  unfold strip, rstrip.
  destruct (lstrip_spec s) as [_ [_ [_ Hhead]]].
  set (t := lstrip s) in *.
  destruct (lstrip_spec (rev t)) as [ws [Hsplit [_ Hu]]].
  set (u := lstrip (rev t)) in *.
  destruct u as [|c r]; [exact I|].
  assert (Ht : t = rev (c :: r) ++ rev ws).
  { rewrite <- (rev_involutive t), Hsplit, rev_app_distr. reflexivity. }
  assert (Hne : rev (c :: r) <> []).
  { cbn [rev]. intros H. apply app_eq_nil in H as [_ H]. discriminate. }
  unfold trimmed. destruct (rev (c :: r)) as [|x l] eqn:Hrev; [congruence|].
  split.
  - rewrite Ht in Hhead. exact Hhead.
  - rewrite <- Hrev. cbn [rev].
    rewrite last_app_nonempty by discriminate. exact Hu.
Qed.

Lemma trimmed_app (x y : pystr) :
  x <> [] -> y <> [] -> trimmed x -> trimmed y -> trimmed (x ++ y).
Proof.
  intros Hx Hy Tx Ty. destruct x as [|a x]; [congruence|].
  destruct y as [|b y]; [congruence|].
  destruct Tx as [Ha _]. destruct Ty as [_ Hb].
  cbn [trimmed app]. split; [assumption|].
  change (a :: x ++ b :: y) with ((a :: x) ++ b :: y).
  rewrite last_app_nonempty by discriminate.
  rewrite (@last_default_irrelevant _ (b :: y) a b) by discriminate. exact Hb.
Qed.

Lemma trimmed_concat (l : list pystr) :
  Forall (fun x => x <> [] /\ trimmed x) l -> trimmed (concat l).
Proof.
  induction 1 as [|x l [Hx Tx] _ IH]; [exact I|].
  cbn [concat]. destruct (concat l) eqn:Hc.
  - rewrite app_nil_r. exact Tx.
  - apply trimmed_app; [assumption | discriminate | assumption | assumption].
Qed.

Lemma get_text_strip_no_outer_space (n : node) : trimmed (get_text_strip n).
Proof.
  unfold get_text_strip. apply trimmed_concat. apply Forall_forall.
  intros x Hx. apply filter_In in Hx as [Hin Ht].
  apply in_map_iff in Hin as [s [<- _]].
  split; [apply truthy_iff; assumption | apply strip_trimmed].
Qed.

Lemma concat_filter_truthy_nil (l : list pystr) :
  concat (filter truthy l) = [] <-> Forall (fun s => s = []) l.
Proof.
  induction l as [|x l IH]; cbn [filter].
  - split; [constructor | reflexivity].
  - destruct x as [|c x]; cbn [truthy].
    + rewrite IH. split; [constructor; [reflexivity | assumption]|].
      intros H. inversion H. assumption.
    + split; [discriminate|]. intros H. inversion H. discriminate.
Qed.

(** X9: the text that [get_text(strip=True)] returns for an element never
    begins or ends with whitespace, and it is empty exactly when every
    string of the element consists of whitespace only; what remains of a
    title never begins or ends with whitespace either. *)
Theorem extracted_text_trimmed :
  (forall n : node, trimmed (get_text_strip n))
  /\ (forall n : node,
         get_text_strip n = []
         <-> Forall (fun s => strip s = []) (strings n))
  /\ (forall title_text : pystr, trimmed (title_remainder title_text)).
Proof.
  split; [exact get_text_strip_no_outer_space|]. split.
  - intros n. unfold get_text_strip. rewrite concat_filter_truthy_nil.
    rewrite Forall_map. reflexivity.
  - intros t. apply strip_trimmed.
Qed.

(** ** Tidy dictionaries *)

Lemma NoDup_snoc (A : Type) (l : list A) (x : A) :
  NoDup l -> ~ In x l -> NoDup (l ++ [x]).
Proof.
  induction 1 as [|y l Hy Hl IH]; intros Hx; cbn [app].
  - constructor; [intros []| constructor].
  - constructor.
    + rewrite in_app_iff. intros [H | [H | []]]; [tauto|].
      apply Hx. left. symmetry. assumption.
    + apply IH. intros H. apply Hx. right. assumption.
Qed.

Lemma tidy_empty (allowed : list pystr) : tidy allowed PyDict.empty.
Proof.
  repeat split; [intros k [] | constructor | discriminate].
Qed.

Lemma tidy_set (allowed : list pystr) (d : PyDict.dict pystr)
    (k v : pystr) :
  In k allowed -> trimmed v -> tidy allowed d ->
  tidy allowed (PyDict.set d k v).
Proof.
  intros Hk Hv [Hincl [Hnd Hval]]. unfold tidy. rewrite keys_set.
  split; [|split].
  - destruct (PyDict.mem d k); [assumption|].
    apply incl_app; [assumption|]. intros x [<- | []]. assumption.
  - destruct (PyDict.mem d k) eqn:Hm; [assumption|].
    apply NoDup_snoc; [assumption|].
    intros Hin. apply mem_true_iff_in_keys in Hin. congruence.
  - intros k' v' Hget.
    destruct (list_eq_dec N.eq_dec k k') as [<- | Hne].
    + rewrite get_set_eq in Hget. inversion Hget. subst v'. assumption.
    + rewrite get_set_ne in Hget by assumption. eapply Hval. eassumption.
Qed.

Lemma tidy_assign_field (info : PyDict.dict pystr)
    (label_text content_text : pystr) :
  trimmed content_text -> tidy known_fields info ->
  tidy known_fields (assign_field info label_text content_text).
Proof.
  intros Hc Hi. unfold assign_field.
  destruct (contains K.project_name label_text);
    [apply tidy_set; [left; reflexivity | assumption | assumption]|].
  destruct (contains K.location label_text);
    [apply tidy_set; [right; left; reflexivity | assumption | assumption]|].
  destruct (contains K.sales_area label_text);
    [apply tidy_set;
       [right; right; left; reflexivity | assumption | assumption]|].
  destruct (contains K.permit_use label_text);
    [apply tidy_set;
       [right; right; right; left; reflexivity | assumption | assumption]|].
  destruct (contains K.permit_number label_text);
    [apply tidy_set;
       [right; right; right; right; left; reflexivity
       | assumption | assumption]|].
  assumption.
Qed.

Lemma tidy_labelled (labels : list located) (info : PyDict.dict pystr) :
  tidy known_fields info ->
  tidy known_fields (fold_left label_step labels info).
Proof.
  revert info. induction labels as [|l labels IH]; intros info Hi;
    [assumption|].
  cbn [fold_left]. apply IH. unfold label_step.
  destruct (content_of l); [|assumption].
  apply tidy_assign_field; [apply get_text_strip_no_outer_space | assumption].
Qed.

Section Tidy.

Context {PF : PyFloat}.

(** X10: the basic information of every result has keys among the five
    field names only, each at most once, and values without whitespace at
    either end, whatever the labels and the title of the document are. *)
Theorem basic_info_tidy (now : pystr) (soup : node) :
  tidy known_fields (basic_info (extract_from_soup now soup)).
Proof.
  cbn [extract_from_soup build_result basic_info].
  assert (Hl : tidy known_fields (labelled_info soup))
    by (apply tidy_labelled, tidy_empty).
  unfold title_fallback.
  destruct (negb (PyDict.mem (labelled_info soup) K.project_name));
    [|assumption].
  destruct (find K.title None soup) as [t|]; [|assumption].
  destruct (contains K.title_phrase (get_text_strip (here t)));
    [|assumption].
  destruct (truthy _); [|assumption].
  apply tidy_set; [left; reflexivity | apply strip_trimmed | assumption].
Qed.

End Tidy.

Lemma tidy_cell_field (d : PyDict.dict pystr) (key : pystr) (c : located) :
  In key unit_fields -> tidy unit_fields d ->
  tidy unit_fields (cell_field d key c).
Proof.
  intros Hk Hd. unfold cell_field.
  destruct (find K.div (Some (class_equal K.cell)) (here c));
    [|assumption].
  apply tidy_set; [assumption | apply get_text_strip_no_outer_space | assumption].
Qed.

Lemma head_key_cell_field (d : PyDict.dict pystr) (key k0 : pystr)
    (c : located) :
  hd_error (keys d) = Some k0 ->
  hd_error (keys (cell_field d key c)) = Some k0.
Proof.
  intros H. unfold cell_field.
  destruct (find K.div (Some (class_equal K.cell)) (here c));
    [|assumption].
  rewrite keys_set. destruct (PyDict.mem d key); [assumption|].
  destruct (keys d); [discriminate | assumption].
Qed.

(** X11: the record of a retained row has keys among the five unit keys,
    each at most once, and values without whitespace at either end; its
    first key is the room number, whose value is not empty. *)
Theorem house_record_tidy (row : located) (h : PyDict.dict pystr) :
  row_house_info row = Some h ->
  tidy unit_fields h
  /\ hd_error (keys h) = Some K.room
  /\ exists room, PyDict.get h K.room = Some room /\ room <> [].
Proof.
  unfold row_house_info.
  destruct (row_cells row) as [|c0 [|c1 [|c2 [|c3 [|c4 rest]]]]];
    try discriminate.
  destruct (has_room _) eqn:Hroom; [|discriminate].
  intros H. inversion H. clear H. subst h.
  split; [|split].
  - unfold build_house_info.
    apply tidy_cell_field;
      [right; right; right; right; left; reflexivity|].
    apply tidy_cell_field; [right; right; right; left; reflexivity|].
    apply tidy_cell_field; [right; right; left; reflexivity|].
    apply tidy_cell_field; [right; left; reflexivity|].
    apply tidy_cell_field; [left; reflexivity | apply tidy_empty].
  - unfold has_room in Hroom. rewrite room_of_build_house_info in Hroom.
    unfold build_house_info. do 4 apply head_key_cell_field.
    unfold cell_field.
    destruct (find K.div (Some (class_equal K.cell)) (here c0));
      [reflexivity | discriminate].
  - unfold has_room in Hroom.
    destruct (PyDict.get (build_house_info c0 c1 c2 c3 c4) K.room)
      as [room|]; [|discriminate].
    exists room. split; [reflexivity | apply truthy_iff; assumption].
Qed.

Lemma house_record_tidy_witness :
  let row := nth 1 (table_rows Sample.page) (Located (Comment []) []) in
  let h := match row_house_info row with Some h => h | None => [] end in
  row_house_info row = Some h
  /\ hd_error (keys h) = Some K.room
  /\ NoDup (keys h).
Proof.
  intros row h.
  assert (H : row_house_info row = Some h) by (vm_compute; reflexivity).
  split; [exact H|].
  destruct (house_record_tidy row H) as [[_ [Hnd _]] [Hhd _]].
  split; [exact Hhd | exact Hnd].
Defined.

(** ** More on the statistics *)

Lemma retained_length (rows : list located) :
  length (retained rows) <= length rows.
Proof.
  induction rows as [|row rows IH]; [apply le_n|].
  unfold retained in *. cbn [flat_map]. rewrite length_app.
  destruct (row_house_info row); cbn [length]; lia.
Qed.

Section Counts.

Context {PF : PyFloat}.

(** X12: in every result the sold, unsold and mortgaged counts lie
    between 0 and the total count, and the total count is at most the
    number of data rows of the document. *)
Theorem counts_bounded (now : pystr) (soup : node) :
  let st := stats (extract_from_soup now soup) in
  (0 <= sold_count st <= total_count st
   /\ 0 <= unsold_count st <= total_count st
   /\ 0 <= mortgaged_count st <= total_count st
   /\ total_count st <= Z.of_nat (length (table_rows soup)))%Z.
Proof.
  cbn [extract_from_soup build_result stats sold_count unsold_count
       mortgaged_count total_count].
  pose proof (count_where_bounds K.sold K.sold_yes
                (extract_house_details soup)) as Hs.
  pose proof (count_where_bounds K.mortgage K.mortgage_yes
                (extract_house_details soup)) as Hm.
  pose proof (retained_length (table_rows soup)) as Hl.
  rewrite <- extract_house_details_retained in Hl.
  lia.
Qed.

(** X13: a document none of whose data rows is retained, in particular a
    document without data rows, still gives a result: the unit sequence is
    empty, the four counts are 0 and the total area is that of no unit. *)
Theorem no_units_zero_statistics (now : pystr) (soup : node) :
  Forall (fun row => row_house_info row = None) (table_rows soup) ->
  let r := extract_from_soup now soup in
  house_details r = []
  /\ total_count (stats r) = 0%Z
  /\ sold_count (stats r) = 0%Z
  /\ unsold_count (stats r) = 0%Z
  /\ mortgaged_count (stats r) = 0%Z
  /\ total_area_text (stats r) = format_2f float_zero ++ K.square_metre.
Proof.
  intros Hrows.
  assert (Hd : extract_house_details soup = []).
  { rewrite extract_house_details_retained. unfold retained.
    induction Hrows as [|row rows Hrow _ IH]; [reflexivity|].
    cbn [flat_map]. rewrite Hrow, IH. reflexivity. }
  cbn [extract_from_soup build_result stats house_details total_count
       sold_count unsold_count mortgaged_count total_area_text].
  rewrite Hd. repeat split.
Qed.

(** X14: a unit whose area text is missing or empty, or is refused by
    [float] once 平方米 is taken out, can be removed from the unit sequence
    without changing the total area. *)
Theorem skipped_area_leaves_total (hs1 hs2 : list (PyDict.dict pystr))
    (h : PyDict.dict pystr) :
  area_skipped h ->
  compute_total_area (hs1 ++ h :: hs2) = compute_total_area (hs1 ++ hs2).
Proof.
  intros Hskip. unfold compute_total_area. rewrite !fold_left_app.
  cbn [fold_left]. f_equal. rewrite area_step_spec.
  unfold area_skipped in Hskip.
  destruct (PyDict.get_default h K.area []); [reflexivity|].
  rewrite Hskip. reflexivity.
Qed.

End Counts.

Lemma no_units_zero_statistics_witness :
  let r := extract_from_soup (PF := Binary64.binary64) [] Sample.other_title in
  Forall (fun row => row_house_info row = None)
    (table_rows Sample.other_title)
  /\ total_count (stats r) = 0%Z
  /\ total_area_text (stats r) = lit "0.00平方米".
Proof.
  intros r.
  assert (Hrows : table_rows Sample.other_title = [])
    by (vm_compute; reflexivity).
  assert (H : Forall (fun row => row_house_info row = None)
                (table_rows Sample.other_title))
    by (rewrite Hrows; constructor).
  split; [exact H|].
  destruct (no_units_zero_statistics (PF := Binary64.binary64) []
              Sample.other_title H) as [_ [Ht [_ [_ [_ Ha]]]]].
  split; [exact Ht|]. unfold r. rewrite Ha. vm_compute. reflexivity.
Defined.

Lemma skipped_area_leaves_total_witness :
  let h := Sample.house "abc" in
  area_skipped (PF := Binary64.binary64) h
  /\ compute_total_area (PF := Binary64.binary64)
       ([Sample.house "90"] ++ h :: [])
     = compute_total_area (PF := Binary64.binary64) ([Sample.house "90"] ++ []).
Proof.
  intros h.
  assert (H : area_skipped (PF := Binary64.binary64) h)
    by (vm_compute; reflexivity).
  split; [exact H|].
  exact (skipped_area_leaves_total (PF := Binary64.binary64)
           [Sample.house "90"] [] h H).
Defined.

(** ** The text report *)

Lemma house_lines_app (i : Z) (hs1 hs2 : list (PyDict.dict pystr)) :
  house_lines i (hs1 ++ hs2)
  = house_lines i hs1 ++ house_lines (i + Z.of_nat (length hs1)) hs2.
Proof.
  revert i. induction hs1 as [|h hs1 IH]; intros i.
  - cbn [app house_lines length Z.of_nat]. rewrite Z.add_0_r. reflexivity.
  - cbn [app house_lines]. rewrite IH. rewrite <- !app_assoc.
    replace (i + 1 + Z.of_nat (length hs1))%Z
      with (i + Z.of_nat (length (h :: hs1)))%Z
      by (cbn [length]; lia).
    reflexivity.
Qed.

(** X15: the text report numbers the units from 1 in the order of the unit
    sequence: the report of the first [n] units is followed by the block
    of unit [n + 1], made of its header line, one indented line for each
    field it has and a blank line, and then by the blocks of the units
    after it. *)
Theorem report_numbers_units_from_one (data : result)
    (hs1 hs2 : list (PyDict.dict pystr)) (h : PyDict.dict pystr) :
  house_details data = hs1 ++ h :: hs2 ->
  text_report data
  = text_report (Result (basic_info data) hs1 (stats data))
    ++ house_header (Z.of_nat (length hs1) + 1)
    ++ item_lines (lit "  ") h ++ nl
    ++ house_lines (Z.of_nat (length hs1) + 2) hs2.
Proof.
  intros H. unfold text_report. cbn [basic_info stats house_details].
  rewrite H, house_lines_app. cbn [house_lines]. unfold house_header.
  replace (1 + Z.of_nat (length hs1))%Z with (Z.of_nat (length hs1) + 1)%Z
    by lia.
  replace (Z.of_nat (length hs1) + 1 + 1)%Z with (Z.of_nat (length hs1) + 2)%Z
    by lia.
  rewrite <- !app_assoc. reflexivity.
Qed.

Lemma report_numbers_units_from_one_witness :
  let data := extract_from_soup (PF := Binary64.binary64) [] Sample.page in
  let h1 := nth 0 (house_details data) [] in
  let h2 := nth 1 (house_details data) [] in
  house_details data = [h1] ++ h2 :: []
  /\ text_report data
     = text_report (Result (basic_info data) [h1] (stats data))
       ++ house_header 2 ++ item_lines (lit "  ") h2 ++ nl ++ [].
Proof.
  intros data h1 h2.
  assert (H : house_details data = [h1] ++ h2 :: [])
    by (vm_compute; reflexivity).
  split; [exact H|].
  exact (report_numbers_units_from_one data [h1] [] h2 H).
Defined.


(** ** Sample runs *)

Lemma main_missing_input_witness :
  let E := Sample.env_of (Ok Sample.page) (fun _ _ => None) in
  let a := Args (lit "absent.html") None in
  path_exists E (html_file a) = false
  /\ main (PF := Binary64.binary64) E a Sample.world0
     = (inl (SystemExit 1),
        World [missing_message (lit "absent.html")] []).
Proof.
  intros E a.
  assert (H : path_exists E (html_file a) = false) by reflexivity.
  split; [exact H|].
  destruct (main_missing_input (PF := Binary64.binary64) E a Sample.world0 H)
    as [_ [Hm _]].
  exact (Hm eq_refl).
Defined.

Lemma main_extraction_failure_witness :
  let E := Sample.env_of (Raises (lit "bad markup")) (fun _ _ => None) in
  let a := Args (lit "page.html") None in
  path_exists E (html_file a) = true
  /\ (exists html_content,
        open_read E (html_file a) = Ok html_content
        /\ BeautifulSoup E html_content = Raises (lit "bad markup"))
  /\ main (PF := Binary64.binary64) E a Sample.world0
     = (inl (SystemExit 1),
        World [processing_message (lit "page.html");
               extraction_diagnostic (lit "bad markup");
               failure_message] []).
Proof.
  intros E a.
  assert (Hx : path_exists E (html_file a) = true) by reflexivity.
  assert (Hp : exists html_content,
             open_read E (html_file a) = Ok html_content
             /\ BeautifulSoup E html_content = Raises (lit "bad markup"))
    by (exists (lit "<html>"); split; reflexivity).
  split; [exact Hx|]. split; [exact Hp|].
  assert (HE : stdout_works E) by (intros printed line; reflexivity).
  destruct (main_extraction_failure (PF := Binary64.binary64) E a
              Sample.world0 Hx (or_intror Hp)) as [_ [Hm _]].
  exact (Hm HE).
Defined.

Lemma main_success_witness :
  let E := Sample.env_of (Ok Sample.page) (fun _ _ => None) in
  let a := Args (lit "page.html") (Some (lit "units.txt")) in
  let data := extract_from_soup (PF := Binary64.binary64) (now_text E)
                Sample.page in
  path_exists E (html_file a) = true
  /\ open_read E (html_file a) = Ok (lit "<html>")
  /\ BeautifulSoup E (lit "<html>") = Ok Sample.page
  /\ main (PF := Binary64.binary64) E a Sample.world0
     = (inr tt,
        World (processing_message (lit "page.html")
                 :: summary_lines (stats data)
                 ++ [saved_message (lit "units.txt")])
          [(lit "units.txt", TextFile (text_report data))]).
Proof.
  intros E a data.
  assert (Hx : path_exists E (html_file a) = true) by reflexivity.
  assert (Hr : open_read E (html_file a) = Ok (lit "<html>"))
    by reflexivity.
  assert (Hp : BeautifulSoup E (lit "<html>") = Ok Sample.page)
    by reflexivity.
  split; [exact Hx|]. split; [exact Hr|]. split; [exact Hp|].
  assert (HE : stdout_works E) by (intros printed line; reflexivity).
  destruct (main_success (PF := Binary64.binary64) E a Sample.world0 Hx Hr Hp)
    as [_ Hm].
  rewrite (Hm HE). reflexivity.
Defined.
